(** * nuanz-insights: portfolio P&L, sentiment and risk heuristics

    A shallow embedding of [portfolio_pl_calculator.py] and of the sentiment,
    risk and hedge endpoints of [simple_api_server.py], followed by the
    properties of the specification that concern them.

    Numbers.  The Python code computes on [int] and [float] values.  The
    embedding reads them in two ways.

    The exact reading ([PL], [Server]) takes them as rationals ([Q]), the
    "decimal" of the specification's data model: [0.3] is the fraction
    [3 # 10], the operations are those of the field and comparisons are
    exact.  It serves for what does not hinge on rounding: which branch a
    lookup takes, what a line is made of, orders and ranges that rounding
    preserves.  Equality of rationals is [==] ([Qeq]); [=] is used where
    the code yields the very same expression.

    The binary64 reading ([F64], [PL64], [Server64]) takes a [float] as the
    kernel's primitive IEEE 754 double, with its rounding after every
    operation, its signed zeros, infinities and NaN, and with Python's own
    [round], [sum] and [float].  It serves wherever the last digits decide:
    sums against sums, a percentage against its threshold, a division by a
    total that may be zero.  Numbers of NumPy type behave as Python floats
    in the operations used here.

    Text.  A [str] is a [string] of ASCII characters; [lower] maps [A-Z] to
    [a-z], which is what [str.lower] does on ASCII text.

    Output.  What the code prints to the console is not modelled. *)

From Stdlib Require Import ZArith QArith Qround Qabs Lia Lqa.
From Stdlib Require Import Bool List String Ascii.
From Stdlib Require PrimFloat SpecFloat FloatOps FloatAxioms.
Import ListNotations.

Set Warnings "-register-all".
Set Warnings "-inexact-float".

Local Open Scope string_scope.
Local Open Scope Q_scope.

(* ================================================================== *)
(** * Python values and built-ins                                      *)
(* ================================================================== *)

Module Py.

(** Strict comparison on numbers, as a boolean ([a < b]). *)
Definition Qltb (a b : Q) : bool :=
  (Qnum a * QDen b <? Qnum b * QDen a)%Z.

(** [min(a, b)] and [max(a, b)]: the first argument wins a tie. *)
Definition min (a b : Q) : Q := if Qltb b a then b else a.
Definition max (a b : Q) : Q := if Qltb a b then b else a.

(** [sum(xs)] over numbers: a left fold from [0]. *)
Definition sum (xs : list Q) : Q := fold_left Qplus xs 0.

(** [round(x)] to an integer, ties to the even neighbour. *)
Definition round_half_even (x : Q) : Z :=
  let f := Qfloor x in
  let d := x - inject_Z f in
  if Qltb d (1 # 2) then f
  else if Qltb (1 # 2) d then (f + 1)%Z
  else if Z.even f then f else (f + 1)%Z.

(** [round(x, n)] for [n >= 0] decimals; a tie is a tie of the exact
    decimal value. *)
Definition round (x : Q) (n : nat) : Q :=
  let p := (10 ^ Z.of_nat n)%Z in
  inject_Z (round_half_even (x * inject_Z p)) / inject_Z p.

(** [x] is a multiple of [1/d]; with [d = 10000], a number of at most four
    decimals. *)
Definition on_grid (d : positive) (x : Q) : Prop := exists z : Z, x == z # d.

(** ** Strings *)

Definition lower_ascii (c : ascii) : ascii :=
  let n := nat_of_ascii c in
  if ((65 <=? n) && (n <=? 90))%nat then ascii_of_nat (n + 32) else c.

Fixpoint lower (s : string) : string :=
  match s with
  | EmptyString => EmptyString
  | String c s' => String (lower_ascii c) (lower s')
  end.

Fixpoint starts_with (w s : string) : bool :=
  match w, s with
  | EmptyString, _ => true
  | String a w', String b s' => Ascii.eqb a b && starts_with w' s'
  | String _ _, EmptyString => false
  end.

(** [w in s] on strings: [w] occurs in [s] as a contiguous substring. *)
Fixpoint contains (w s : string) : bool :=
  starts_with w s ||
  match s with
  | EmptyString => false
  | String _ s' => contains w s'
  end.

(** [s.replace(' ', '%20')]. *)
Fixpoint replace_spaces (s : string) : string :=
  match s with
  | EmptyString => EmptyString
  | String c s' =>
      if Ascii.eqb c " "%char then "%20" ++ replace_spaces s'
      else String c (replace_spaces s')
  end.

(** ** Values

    What [response.json()] can yield, which is also what the price functions
    can return: [None], a [bool], a number, a [str], a [list] or a [dict]
    (string keys, in insertion order, pairwise distinct). *)
Inductive value : Type :=
| VNone
| VBool (b : bool)
| VNum (q : Q)
| VStr (s : string)
| VList (l : list value)
| VDict (kv : list (string * value)).

(** Truth value of an object in a condition. *)
Definition truthy (v : value) : bool :=
  match v with
  | VNone => false
  | VBool b => b
  | VNum q => negb (Qeq_bool q 0)
  | VStr s => negb (String.eqb s "")
  | VList l => match l with [] => false | _ => true end
  | VDict kv => match kv with [] => false | _ => true end
  end.

(** [isinstance(v, (int, float))], with the number it stands for;
    [bool] is a subclass of [int]. *)
Definition as_number (v : value) : option Q :=
  match v with
  | VNum q => Some q
  | VBool b => Some (if b then 1 else 0)
  | _ => None
  end.

(** [d[k]] on the items of a dict; [None] stands for [KeyError]. *)
Fixpoint dict_get (k : string) (kv : list (string * value)) : option value :=
  match kv with
  | [] => None
  | (k', v) :: rest => if String.eqb k k' then Some v else dict_get k rest
  end.

Definition is_str (s : string) (v : value) : bool :=
  match v with
  | VStr s' => String.eqb s s'
  | _ => false
  end.

End Py.

(* ================================================================== *)
(** * portfolio_pl_calculator.py                                       *)
(* ================================================================== *)

Module PL.
Import Py.

(** A row of the holdings table, as [load_portfolio_data] builds it. *)
Record holding : Type := Holding {
  instrument : string;
  quantity : Q;
  avg_cost : Q;
  invested : Q;
  current_value : Q;
  asset_class : string;
  sector : string
}.

(** ** The outside world

    The calculation talks to two HTTP services.  A request is answered by a
    response (status code and the parsed body, [None] when [response.json()]
    raises) or fails with an exception.  The answer may depend on the request
    and on how many requests the calculation has sent before, so the price
    functions are written in a state monad over that count. *)
Inductive request : Type :=
| UpstoxLtp (instrument_key : string)
| MfSearch (q : string)
| MfNav (scheme_code : value).

Inductive reply : Type :=
| Response (status_code : Z) (json : option value)
| Raised.

(** [py_float s] is [float(s)] on a string, [None] where it raises
    [ValueError]. *)
Record world : Type := World {
  net : nat -> request -> reply;
  py_float : string -> option Q
}.

Definition M (A : Type) : Type := nat -> A * nat.
Definition ret {A} (a : A) : M A := fun k => (a, k).
Definition bind {A B} (m : M A) (f : A -> M B) : M B :=
  fun k => let (a, k') := m k in f a k'.
Definition send (w : world) (r : request) : M reply :=
  fun k => (net w k r, S k).

Notation "x <- m ;; f" := (bind m (fun x => f))
  (at level 61, m at next level, right associativity).

(** ** map_to_upstox_symbol *)
Definition symbol_mapping : list (string * string) :=
  [ ("GOLD1", "NSE_EQ|INE970I01023");
    ("NATIONALUM", "NSE_EQ|INE139A01034");
    ("OIL", "NSE_EQ|INE213A01029") ].

Fixpoint mapping_get (k : string) (m : list (string * string)) : option string :=
  match m with
  | [] => None
  | (k', v) :: rest => if String.eqb k k' then Some v else mapping_get k rest
  end.

Definition map_to_upstox_symbol (symbol : string) : string :=
  match mapping_get symbol symbol_mapping with
  | Some key => key
  | None => "NSE_EQ|" ++ symbol
  end.

(** ** get_upstox_stock_price

    [TOKEN_EXPIRED] is the marker the function returns on status 401. *)
Definition TOKEN_EXPIRED : value := VStr "TOKEN_EXPIRED".

(** The loop over [data['data'].items()]: the first entry that is truthy and
    has ['last_price'] gives the price.  [price_data] that is a non-empty
    string or list supports [in] but not the lookup, a non-zero number does
    not support [in]: both raise, and the function's [except] returns [None].
    [None] is also what the function returns when the loop finds nothing. *)
Fixpoint scan_last_price (items : list (string * value)) : value :=
  match items with
  | [] => VNone
  | (_, price_data) :: rest =>
      if truthy price_data then
        match price_data with
        | VDict kv =>
            match dict_get "last_price" kv with
            | Some price => price
            | None => scan_last_price rest
            end
        | VStr s =>
            if contains "last_price" s then VNone else scan_last_price rest
        | VList l =>
            if existsb (is_str "last_price") l then VNone
            else scan_last_price rest
        | _ => VNone
        end
      else scan_last_price rest
  end.

Definition upstox_price_of_reply (r : reply) : value :=
  match r with
  | Raised => VNone
  | Response status_code json =>
      if (status_code =? 200)%Z then
        match json with
        | Some (VDict data) =>
            match dict_get "status" data, dict_get "data" data with
            | Some st, Some d =>
                if is_str "success" st then
                  match d with
                  | VDict items => scan_last_price items
                  | _ => VNone
                  end
                else VNone
            | _, _ => VNone
            end
        | _ => VNone
        end
      else if (status_code =? 401)%Z then TOKEN_EXPIRED
      else VNone
  end.

Definition get_upstox_stock_price (w : world) (symbol : string) : M value :=
  r <- send w (UpstoxLtp (map_to_upstox_symbol symbol)) ;;
  ret (upstox_price_of_reply r).

(** ** get_mf_nav *)

(** [float(v)]; [None] where it raises. *)
Definition float_of (w : world) (v : value) : option Q :=
  match v with
  | VNum q => Some q
  | VBool b => Some (if b then 1 else 0)
  | VStr s => py_float w s
  | _ => None
  end.

Definition of_option (o : option Q) : value :=
  match o with
  | Some q => VNum q
  | None => VNone
  end.

(** [search_results[0]['schemeCode']] when [search_results] is truthy. *)
Definition first_scheme_code (search_results : value) : option value :=
  match search_results with
  | VList (VDict first :: _) => dict_get "schemeCode" first
  | _ => None
  end.

(** The NAV response: [nav_data['meta']['fund_house']] must be truthy, then
    [float(nav_data['data'][0]['nav'])]. *)
Definition nav_of_reply (w : world) (r : reply) : value :=
  match r with
  | Response status_code (Some (VDict nav_data)) =>
      if (status_code =? 200)%Z then
        match dict_get "meta" nav_data with
        | Some (VDict meta) =>
            match dict_get "fund_house" meta with
            | Some fh =>
                if truthy fh then
                  match dict_get "data" nav_data with
                  | Some (VList (VDict entry :: _)) =>
                      match dict_get "nav" entry with
                      | Some latest_nav => of_option (float_of w latest_nav)
                      | None => VNone
                      end
                  | _ => VNone
                  end
                else VNone
            | None => VNone
            end
        | _ => VNone
        end
      else VNone
  | _ => VNone
  end.

Definition get_mf_nav (w : world) (scheme_name : string) : M value :=
  r <- send w (MfSearch (replace_spaces scheme_name)) ;;
  match r with
  | Response status_code json =>
      if (status_code =? 200)%Z then
        match json with
        | Some search_results =>
            if truthy search_results then
              match first_scheme_code search_results with
              | Some scheme_code =>
                  r2 <- send w (MfNav scheme_code) ;;
                  ret (nav_of_reply w r2)
              | None => ret VNone
              end
            else ret VNone
        | None => ret VNone
        end
      else ret VNone
  | Raised => ret VNone
  end.

(** ** calculate_portfolio_pl *)

(** A dictionary of [pl_details]. *)
Record pl_line : Type := PlLine {
  pl_instrument : string;
  pl_invested : Q;
  pl_current_value : Q;
  pl_amount : Q;
  pl_percentage : Q;
  current_price : value
}.

(** The marker stored as ['current_price'] on the fallback path. *)
Definition API_FAILED : value := VStr "API_FAILED".

Record pl_result : Type := PlResult {
  total_invested : Q;
  total_current_value : Q;
  total_pl : Q;
  total_pl_percentage : Q;
  details : list pl_line
}.

(** The price lookup at the head of the loop body. *)
Definition resolve_price (w : world) (h : holding) : M value :=
  if String.eqb (asset_class h) "Equity" then
    get_upstox_stock_price w (instrument h)
  else if contains "fund" (lower (instrument h))
          || contains "mutual" (lower (instrument h)) then
    get_mf_nav w (instrument h)
  else ret VNone.

(** [current_price and isinstance(current_price, (int, float)) and
    current_price > 0], with the number when the test holds. *)
Definition live_price (price : value) : option Q :=
  if truthy price then
    match as_number price with
    | Some p => if Qltb 0 p then Some p else None
    | None => None
    end
  else None.

(** The rest of the loop body: the line appended to [pl_details]. *)
Definition line_of (h : holding) (price : value) : pl_line :=
  match live_price price with
  | Some p =>
      let cv := quantity h * p in
      let pl := cv - invested h in
      {| pl_instrument := instrument h;
         pl_invested := invested h;
         pl_current_value := cv;
         pl_amount := pl;
         pl_percentage :=
           if Qltb 0 (invested h) then (pl / invested h) * 100 else 0;
         current_price := price |}
  | None =>
      let cv := current_value h in
      {| pl_instrument := instrument h;
         pl_invested := invested h;
         pl_current_value := cv;
         pl_amount := cv - invested h;
         pl_percentage :=
           if Qltb 0 (invested h)
           then ((cv - invested h) / invested h) * 100 else 0;
         current_price := API_FAILED |}
  end.

(** The [for] loop, on the three variables it updates. *)
Fixpoint pl_loop (w : world) (hs : list holding)
    (acc : Q * Q * list pl_line) : M (Q * Q * list pl_line) :=
  match hs with
  | [] => ret acc
  | h :: rest =>
      let '(ti, tcv, pl_details) := acc in
      price <- resolve_price w h ;;
      let line := line_of h price in
      pl_loop w rest
        (ti + invested h, tcv + pl_current_value line,
         (pl_details ++ [line])%list)
  end.

(** The function returns [None] only from its [except] branch, which the
    exact reading leaves out: a well-typed holdings list reaches it only
    with a price that is an integer too large for a float (see [PL64]).
    The timestamp is left out. *)
Definition calculate_portfolio_pl (w : world) (holdings : list holding)
  : M pl_result :=
  acc <- pl_loop w holdings (0, 0, []) ;;
  let '(ti, tcv, pl_details) := acc in
  let tpl := tcv - ti in
  ret {| total_invested := ti;
         total_current_value := tcv;
         total_pl := tpl;
         total_pl_percentage := if Qltb 0 ti then (tpl / ti) * 100 else 0;
         details := pl_details |}.

(** The prices the loop obtains, holding by holding (a trace of the run,
    used to state what each line was computed from). *)
Fixpoint resolved_prices (w : world) (hs : list holding) : M (list value) :=
  match hs with
  | [] => ret []
  | h :: rest =>
      price <- resolve_price w h ;;
      prices <- resolved_prices w rest ;;
      ret (price :: prices)
  end.

End PL.

(* ================================================================== *)
(** * simple_api_server.py                                             *)
(* ================================================================== *)

Module Server.
Import Py.

(** ** analyze_with_finbert_simulation *)

Definition strong_positive : list string :=
  ["exceptional"; "stellar"; "outperform"; "breakthrough"; "surge";
   "exceeding"; "robust"; "superior"].
Definition positive : list string :=
  ["strong"; "growth"; "increase"; "gain"; "rising"; "improved"; "bullish";
   "optimistic"; "momentum"].
Definition moderate_positive : list string :=
  ["steady"; "stable"; "recovering"; "upbeat"; "favorable"; "encouraging"].

Definition strong_negative : list string :=
  ["crisis"; "collapse"; "plunge"; "devastating"; "catastrophic"; "severe";
   "alarming"].
Definition negative : list string :=
  ["decline"; "fall"; "loss"; "weak"; "pressure"; "risk"; "concern";
   "disappointing"; "bearish"].
Definition moderate_negative : list string :=
  ["uncertain"; "volatile"; "challenge"; "cautious"; "mixed"; "sluggish"].

Definition financial_context : list (string * Q) :=
  [ ("etf", 0.1); ("fund", 0.1); ("investment", 0.1);
    ("portfolio", 0.1);
    ("quarterly", 0.15); ("earnings", 0.15); ("revenue", 0.15);
    ("production", 0.15);
    ("market", 0.1); ("sector", 0.1); ("industry", 0.1);
    ("economic", 0.1) ].

(** [sum(1 for word in words if word in text_lower)]. *)
Definition count_words (words : list string) (text_lower : string) : Q :=
  sum (map (fun _ => 1) (filter (fun word => contains word text_lower) words)).

(** The pattern [(\d+(?:\.\d+)?)\s*%].  Each of its repetitions is followed
    by something its own characters cannot match, so the greedy choice is the
    only one that can succeed and no backtracking into [\d+] or [\s*] is
    needed; the fraction is optional, so both readings are tried. *)
Definition is_digit (c : ascii) : bool :=
  let n := nat_of_ascii c in ((48 <=? n) && (n <=? 57))%nat.

(** [\s] on ASCII text: tab, newline, vertical tab, form feed, carriage
    return, the four separators 28-31 and the space. *)
Definition is_space (c : ascii) : bool :=
  let n := nat_of_ascii c in
  (((9 <=? n) && (n <=? 13)) || ((28 <=? n) && (n <=? 32)))%nat.

Fixpoint take_digits (s : string) : string * string :=
  match s with
  | String c s' =>
      if is_digit c then let (d, r) := take_digits s' in (String c d, r)
      else (EmptyString, s)
  | EmptyString => (EmptyString, EmptyString)
  end.

(** [\s*%] at the head of [s]: the number of characters it takes. *)
Fixpoint spaces_then_percent (s : string) : option nat :=
  match s with
  | String c s' =>
      if Ascii.eqb c "%"%char then Some 1%nat
      else if is_space c then option_map S (spaces_then_percent s')
      else None
  | EmptyString => None
  end.

(** A match of the pattern at the head of [s]: the text of group 1 and the
    length of the whole match. *)
Definition match_percentage (s : string) : option (string * nat) :=
  let (d1, r1) := take_digits s in
  if String.eqb d1 "" then None
  else
    let plain :=
      option_map (fun n => (d1, (String.length d1 + n)%nat))
                 (spaces_then_percent r1) in
    match r1 with
    | String "."%char r2 =>
        let (d2, r3) := take_digits r2 in
        if String.eqb d2 "" then plain
        else
          match spaces_then_percent r3 with
          | Some n =>
              Some (d1 ++ "." ++ d2,
                    (String.length d1 + 1 + String.length d2 + n)%nat)
          | None => plain
          end
    | _ => plain
    end.

(** [re.findall]: matches are taken left to right and do not overlap;
    [skip] counts the characters of the last match still to be passed. *)
Fixpoint findall_percentages (s : string) (skip : nat) : list string :=
  match s with
  | EmptyString => []
  | String _ s' =>
      match skip with
      | S n => findall_percentages s' n
      | O =>
          match match_percentage s with
          | Some (g, len) => g :: findall_percentages s' (Nat.pred len)
          | None => findall_percentages s' 0
          end
      end
  end.

(** [float(p)] on a string of the shape [\d+(?:\.\d+)?]. *)
Fixpoint digits_value (s : string) (acc : Z) : Z :=
  match s with
  | EmptyString => acc
  | String c s' => digits_value s' (acc * 10 + Z.of_nat (nat_of_ascii c - 48))%Z
  end.

Fixpoint split_at_dot (s : string) : string * option string :=
  match s with
  | EmptyString => (EmptyString, None)
  | String c s' =>
      if Ascii.eqb c "."%char then (EmptyString, Some s')
      else let (a, b) := split_at_dot s' in (String c a, b)
  end.

Definition float_of_decimal (p : string) : Q :=
  match split_at_dot p with
  | (i, None) => inject_Z (digits_value i 0)
  | (i, Some f) =>
      inject_Z (digits_value i 0)
      + inject_Z (digits_value f 0)
        / inject_Z (10 ^ Z.of_nat (String.length f))
  end.

Record scores : Type := Scores {
  score_positive : Q;
  score_negative : Q;
  score_neutral : Q
}.

Record analysis : Type := Analysis {
  sentiment : string;
  confidence : Q;
  scores_of : scores;
  method : string
}.

Definition analyze_with_finbert_simulation (text : string) : analysis :=
  let text_lower := lower text in
  let strong_pos_count := count_words strong_positive text_lower in
  let pos_count := count_words positive text_lower in
  let mod_pos_count := count_words moderate_positive text_lower in
  let strong_neg_count := count_words strong_negative text_lower in
  let neg_count := count_words negative text_lower in
  let mod_neg_count := count_words moderate_negative text_lower in
  let context_boost :=
    sum (map (fun _ => 0.05)
             (filter (fun '(word, weight) => contains word text_lower)
                     financial_context)) in
  let positive_score :=
    (strong_pos_count * 0.3) + (pos_count * 0.2)
    + (mod_pos_count * 0.1) + context_boost in
  let negative_score :=
    (strong_neg_count * 0.3) + (neg_count * 0.2)
    + (mod_neg_count * 0.1) in
  let percentages := findall_percentages text 0 in
  let positive_score :=
    match percentages with
    | [] => positive_score
    | _ =>
        let avg_pct :=
          sum (map float_of_decimal percentages)
          / inject_Z (Z.of_nat (List.length percentages)) in
        if Qltb 10 avg_pct then positive_score + 0.2 else positive_score
    end in
  let '(sentiment, raw_confidence, pos_prob, neg_prob, neu_prob) :=
    if Qltb negative_score positive_score then
      let raw_confidence := 0.75 + min (positive_score * 0.1) 0.2 in
      ("positive", raw_confidence,
       raw_confidence,
       (1 - raw_confidence) * 0.3,
       (1 - raw_confidence) * 0.7)
    else if Qltb positive_score negative_score then
      let raw_confidence := 0.75 + min (negative_score * 0.1) 0.2 in
      ("negative", raw_confidence,
       (1 - raw_confidence) * 0.3,
       raw_confidence,
       (1 - raw_confidence) * 0.7)
    else
      let raw_confidence := 0.65 + context_boost in
      ("neutral", raw_confidence,
       (1 - raw_confidence) * 0.5,
       (1 - raw_confidence) * 0.5,
       raw_confidence) in
  let confidence := min (max raw_confidence 0.6) 0.95 in
  {| sentiment := sentiment;
     confidence := round confidence 4;
     scores_of := {| score_positive := round pos_prob 4;
                     score_negative := round neg_prob 4;
                     score_neutral := round neu_prob 4 |};
     method := "finbert_local" |}.

(** ** get_portfolio_sentiment: the fixed news table *)

Definition GOLD1_news : string :=
  "Gold ETF experiences strong institutional inflows as central bank policies drive safe haven demand amid global economic uncertainty and inflation hedging strategies".

Definition portfolio_stocks : list (string * string) :=
  [ ("GOLD1", GOLD1_news);
    ("NATIONALUM",
     "National Aluminium Company reports exceptional quarterly performance with 15% YoY production growth, driven by robust automotive demand and infrastructure spending surge");
    ("OIL",
     "Oil and Natural Gas Corporation announces significant offshore discovery with estimated reserves exceeding expectations, projecting 20% production increase over next 24 months");
    ("MOTILAL",
     "Motilal Oswal Large and Midcap Fund demonstrates superior alpha generation through disciplined stock selection, outperforming benchmark by 320 basis points year-to-date") ].

(** The analysis is a non-empty dictionary, so the rule-based fallback of the
    loop is never taken. *)
Definition stock_sentiments : list (string * analysis) :=
  map (fun '(symbol, news) => (symbol, analyze_with_finbert_simulation news))
      portfolio_stocks.

(** ** get_portfolio_risks *)

Record risk_holding : Type := RiskHolding {
  r_instrument : string;
  r_current_value : Q;
  r_asset_class : string;
  r_sector : string
}.

(** The table the endpoint hard-codes. *)
Definition portfolio_data : list risk_holding :=
  [ RiskHolding "GOLD1" 60842.70 "Commodity" "Precious Metals";
    RiskHolding "NATIONALUM" 49938.35 "Equity" "Mining";
    RiskHolding "OIL" 61925.13 "Equity" "Oil";
    RiskHolding "MOTILAL" 61464.05 "Equity" "Large and Mid Cap Fund" ].

(** A [dict] from strings to numbers, in insertion order. *)
Definition qdict : Type := list (string * Q).

Fixpoint qdict_get (d : qdict) (k : string) (default : Q) : Q :=
  match d with
  | [] => default
  | (k', v) :: rest => if String.eqb k k' then v else qdict_get rest k default
  end.

(** [d[k] = v]: an existing key keeps its place. *)
Fixpoint qdict_set (d : qdict) (k : string) (v : Q) : qdict :=
  match d with
  | [] => [(k, v)]
  | (k', v') :: rest =>
      if String.eqb k k' then (k', v) :: rest
      else (k', v') :: qdict_set rest k v
  end.

(** The two accumulation loops: [d[key] = d.get(key, 0) + current_value]. *)
Definition accumulate (key : risk_holding -> string)
    (data : list risk_holding) : qdict :=
  fold_left
    (fun d holding =>
       qdict_set d (key holding)
                 (qdict_get d (key holding) 0 + r_current_value holding))
    data [].

(** The two comprehensions [{k: value / total_value * 100 ...}]; [None] is
    the [ZeroDivisionError] of a division by a zero total, which the endpoint
    does not catch. *)
Definition percentages_of (values : qdict) (total_value : Q) : option qdict :=
  match values with
  | [] => Some []
  | _ =>
      if Qeq_bool total_value 0 then None
      else Some (map (fun '(k, value) => (k, value / total_value * 100)) values)
  end.

(** [max(xs)] on a non-empty list: the first of the largest wins. *)
Definition max_of (x : Q) (xs : list Q) : Q :=
  fold_left (fun best y => if Qltb best y then y else best) xs x.

(** A risk entry; the rendered description and the icon, which are display
    text, are left out. *)
Record risk : Type := Risk {
  risk_type : string;
  level : string;
  severity : string;
  recommendation : string
}.

Record risk_summary : Type := RiskSummary {
  total_risks : nat;
  high_risk_count : nat;
  overall_risk_score : string
}.

Record risk_response : Type := RiskResponse {
  timestamp : string;
  total_portfolio_value : Q;
  asset_class_allocation : qdict;
  sector_allocation : qdict;
  summary : risk_summary;
  risks : list risk
}.

Definition asset_concentration_risk : risk :=
  Risk "Asset Concentration" "High" "warning"
       "Consider diversifying into bonds, commodities, or REITs to reduce equity concentration".
Definition asset_allocation_good : risk :=
  Risk "Asset Allocation" "Good" "info"
       "Current asset allocation is well balanced".
Definition sector_concentration_risk : risk :=
  Risk "Sector Concentration" "High" "warning"
       "Diversify across multiple sectors to reduce concentration risk".
Definition sector_diversification_good : risk :=
  Risk "Sector Diversification" "Good" "success"
       "Sector diversification is adequate".
Definition currency_risk : risk :=
  Risk "Currency Risk" "Low" "info"
       "Consider international exposure for currency diversification".

(** The body of the endpoint, on any holdings table; [now] is the time
    stamp of the request. *)
Definition portfolio_risks (data : list risk_holding) (now : string)
  : option risk_response :=
  let total_value := sum (map r_current_value data) in
  let asset_class_values := accumulate r_asset_class data in
  match percentages_of asset_class_values total_value with
  | None => None
  | Some asset_class_percentages =>
  let sector_values := accumulate r_sector data in
  match percentages_of sector_values total_value with
  | None => None
  | Some sector_percentages =>
  let equity_pct := qdict_get asset_class_percentages "Equity" 0 in
  let risks1 :=
    if Qltb 75 equity_pct then [asset_concentration_risk]
    else [asset_allocation_good] in
  let max_sector_pct :=
    match sector_percentages with
    | [] => 0
    | (_, v) :: rest => max_of v (map snd rest)
    end in
  let risks2 :=
    if Qltb 50 max_sector_pct then [sector_concentration_risk]
    else [sector_diversification_good] in
  let risks := (risks1 ++ risks2 ++ [currency_risk])%list in
  Some {| timestamp := now;
          total_portfolio_value := total_value;
          asset_class_allocation := asset_class_percentages;
          sector_allocation := sector_percentages;
          summary :=
            {| total_risks :=
                 List.length
                   (filter (fun r => String.eqb (severity r) "warning") risks);
               high_risk_count :=
                 List.length
                   (filter (fun r => String.eqb (level r) "High") risks);
               overall_risk_score :=
                 if existsb (fun r => String.eqb (level r) "High") risks
                 then "Moderate" else "Low" |};
          risks := risks |}
  end end.

Definition get_portfolio_risks (now : string) : option risk_response :=
  portfolio_risks portfolio_data now.

(** The share of the total value held in one asset class, computed directly
    from the table. *)
Definition class_share (data : list risk_holding) (cls : string) : Q :=
  sum (map r_current_value
           (filter (fun h => String.eqb (r_asset_class h) cls) data))
  / sum (map r_current_value data) * 100.

(** ** get_hedge_analysis *)

(** *** Dates

    A naive [datetime]: the proleptic Gregorian ordinal of its date (day 1 is
    0001-01-01) and its time of day.  [datetime.now()] yields one with
    [1 <= ordinal <= 3652059]. *)
Record datetime : Type := Datetime {
  ordinal : Z;
  hour : Z;
  minute : Z;
  second : Z;
  microsecond : Z
}.

Definition is_leap (year : Z) : bool :=
  ((year mod 4 =? 0) && (negb (year mod 100 =? 0) || (year mod 400 =? 0)))%Z.

Definition days_in_month (year month : Z) : Z :=
  if (month =? 2)%Z then (if is_leap year then 29 else 28)%Z
  else if ((month =? 4) || (month =? 6) || (month =? 9) || (month =? 11))%Z
       then 30%Z else 31%Z.

(** [_DAYS_BEFORE_MONTH[month]] of the datetime module. *)
Definition days_before_month_table (month : Z) : Z :=
  nth (Z.to_nat month)
      [0; 0; 31; 59; 90; 120; 151; 181; 212; 243; 273; 304; 334]%Z 0%Z.

(** [_ord2ymd] of the datetime module: ordinal to year, month, day. *)
Definition ord2ymd (n : Z) : Z * Z * Z :=
  let n := (n - 1)%Z in
  let n400 := (n / 146097)%Z in
  let n := (n mod 146097)%Z in
  let year := (n400 * 400 + 1)%Z in
  let n100 := (n / 36524)%Z in
  let n := (n mod 36524)%Z in
  let n4 := (n / 1461)%Z in
  let n := (n mod 1461)%Z in
  let n1 := (n / 365)%Z in
  let n := (n mod 365)%Z in
  let year := (year + n100 * 100 + n4 * 4 + n1)%Z in
  if ((n1 =? 4) || (n100 =? 4))%Z then ((year - 1)%Z, 12%Z, 31%Z)
  else
    let leapyear := ((n1 =? 3) && (negb (n4 =? 24) || (n100 =? 3)))%Z in
    let month := Z.shiftr (n + 50) 5 in
    let preceding :=
      (days_before_month_table month
       + (if (2 <? month)%Z && leapyear then 1 else 0))%Z in
    if (n <? preceding)%Z then
      let month := (month - 1)%Z in
      let preceding :=
        (preceding
         - (nth (Z.to_nat month)
                [0; 31; 28; 31; 30; 31; 30; 31; 31; 30; 31; 30; 31]%Z 0%Z
            + (if (month =? 2)%Z && leapyear then 1 else 0)))%Z in
      (year, month, (n - preceding + 1)%Z)
    else (year, month, (n - preceding + 1)%Z).

Definition digit_char (d : Z) : ascii := ascii_of_nat (48 + Z.to_nat d).

(** [%0<width>d] on a number with at most [width] digits. *)
Fixpoint zero_padded (width : nat) (n : Z) : string :=
  match width with
  | O => EmptyString
  | S w => zero_padded w (n / 10) ++ String (digit_char (n mod 10)) EmptyString
  end.

(** [%04d-%02d-%02d], the date of [isoformat]. *)
Definition isoformat_date (d : datetime) : string :=
  let '(y, m, dd) := ord2ymd (ordinal d) in
  zero_padded 4 y ++ "-" ++ zero_padded 2 m ++ "-" ++ zero_padded 2 dd.

(** [%Y] of [strftime]: the C library prints the year, which glibc does not
    pad, so a year before 1000 comes out with fewer than four digits. *)
Definition strftime_year (y : Z) : string :=
  if (y <? 10)%Z then zero_padded 1 y
  else if (y <? 100)%Z then zero_padded 2 y
  else if (y <? 1000)%Z then zero_padded 3 y
  else zero_padded 4 y.

(** [strftime('%Y-%m-%d')]. *)
Definition iso_date (d : datetime) : string :=
  let '(y, m, dd) := ord2ymd (ordinal d) in
  strftime_year y ++ "-" ++ zero_padded 2 m ++ "-" ++ zero_padded 2 dd.

(** [str(d)]: the ISO format with a space, the microseconds only when they
    are not zero. *)
Definition str_of_datetime (d : datetime) : string :=
  isoformat_date d ++ " " ++ zero_padded 2 (hour d) ++ ":"
  ++ zero_padded 2 (minute d) ++ ":" ++ zero_padded 2 (second d)
  ++ (if (microsecond d =? 0)%Z then ""
      else "." ++ zero_padded 6 (microsecond d)).

Definition month_abbr (m : Z) : string :=
  nth (Z.to_nat m)
      [""; "Jan"; "Feb"; "Mar"; "Apr"; "May"; "Jun"; "Jul"; "Aug"; "Sep";
       "Oct"; "Nov"; "Dec"] "".

(** [strftime('%b %Y')] in the C locale. *)
Definition month_year (d : datetime) : string :=
  let '(y, m, _) := ord2ymd (ordinal d) in
  month_abbr m ++ " " ++ strftime_year y.

(** [d - timedelta(days=n)]; [None] is the [OverflowError] of a date before
    year 1. *)
Definition minus_days (d : datetime) (n : Z) : option datetime :=
  if (ordinal d - n <? 1)%Z then None
  else Some {| ordinal := ordinal d - n; hour := hour d; minute := minute d;
               second := second d; microsecond := microsecond d |}.

(** *** The endpoint *)

Record history_point : Type := HistoryPoint {
  month : string;
  date : string;
  normal_value : Q;
  hist_shock_5_value : Q;
  hist_shock_10_value : Q
}.

Record shock : Type := Shock {
  shock_value : Q;
  impact : Q
}.

Record hedge_response : Type := HedgeResponse {
  current_portfolio_value : Q;
  shock_5 : shock;
  shock_10 : shock;
  historical_data : list history_point;
  hedge_recommendations : list string
}.

(** The value the scenarios start from: the live total, or the fixed figure
    when the calculation failed or gave a total that is not positive. *)
Definition hedge_current_value (current_pl_data : option PL.pl_result) : Q :=
  match current_pl_data with
  | Some d =>
      if Qltb 0 (PL.total_current_value d) then PL.total_current_value d
      else 234170.23
  | None => 234170.23
  end.

Definition shock_5_value (current_value : Q) : Q := current_value * 0.95.
Definition shock_10_value (current_value : Q) : Q := current_value * 0.90.

(** One round of the history loop.  [hash] is the interpreter's [hash] on
    strings, which CPython salts per process; [%] with a positive right
    operand is [Z.modulo]. *)
Definition history_entry (hash : string -> Z) (current_value : Q)
    (base_date : datetime) (i : Z) : option history_point :=
  match minus_days base_date (i * 30) with
  | None => None
  | Some month_date =>
      let growth_factor := 1 + inject_Z (12 - i) * 0.02 in
      let historical_value := current_value / growth_factor in
      let volatility :=
        inject_Z (hash (str_of_datetime month_date) mod 100 - 50) / 1000 in
      let historical_value := historical_value * (1 + volatility) in
      Some {| month := month_year month_date;
              date := iso_date month_date;
              normal_value := round historical_value 2;
              hist_shock_5_value := round (historical_value * 0.95) 2;
              hist_shock_10_value := round (historical_value * 0.90) 2 |}
  end.

(** [for i in range(12, 0, -1)], stopping at the first exception. *)
Fixpoint history_loop (hash : string -> Z) (current_value : Q)
    (base_date : datetime) (range : list Z) : option (list history_point) :=
  match range with
  | [] => Some []
  | i :: rest =>
      match history_entry hash current_value base_date i with
      | None => None
      | Some e =>
          option_map (cons e) (history_loop hash current_value base_date rest)
      end
  end.

Definition range_12_0 : list Z := [12; 11; 10; 9; 8; 7; 6; 5; 4; 3; 2; 1]%Z.

Fixpoint upper (s : string) : string :=
  match s with
  | EmptyString => EmptyString
  | String c s' =>
      let n := nat_of_ascii c in
      String (if ((97 <=? n) && (n <=? 122))%nat then ascii_of_nat (n - 32)
              else c)
             (upper s')
  end.

Definition recommendations (current_pl_data : option PL.pl_result)
  : list string :=
  let from_details :=
    match current_pl_data with
    | Some d =>
        let equity_exposure :=
          List.length
            (filter (fun h => contains "equity" (lower (PL.pl_instrument h)))
                    (PL.details d)) in
        ((if (0 <? equity_exposure)%nat
          then ["Consider index puts (NIFTY) to hedge equity exposure";
                "VIX calls can protect against market volatility"]
          else [])
         ++ flat_map
              (fun h =>
                 let instrument := upper (PL.pl_instrument h) in
                 if contains "GOLD" instrument then
                   ["Gold positions act as natural hedge - maintain allocation"]
                 else if contains "OIL" instrument
                         || contains "ONGC" instrument then
                   ["Energy sector hedging via commodity futures"]
                 else [])
              (PL.details d))%list
    | None => []
    end in
  match from_details with
  | [] =>
      ["Consider NIFTY put options for downside protection";
       "Increase allocation to defensive sectors like FMCG";
       "Maintain cash reserves for market opportunities";
       "Use VIX futures to hedge against volatility"]
  | _ => from_details
  end.

(** The endpoint after the P&L calculation: [current_pl_data] is what
    [calculate_portfolio_pl] returned and [base_date] is [datetime.now()].
    [None] is the [except] branch (status 500). *)
Definition get_hedge_analysis (hash : string -> Z)
    (current_pl_data : option PL.pl_result) (base_date : datetime)
  : option hedge_response :=
  let current_value := hedge_current_value current_pl_data in
  let shock_5_impact := shock_5_value current_value - current_value in
  let shock_10_impact := shock_10_value current_value - current_value in
  match history_loop hash current_value base_date range_12_0 with
  | None => None
  | Some historical_data =>
      Some {| current_portfolio_value := round current_value 2;
              shock_5 := {| shock_value := round (shock_5_value current_value) 2;
                            impact := round shock_5_impact 2 |};
              shock_10 := {| shock_value := round (shock_10_value current_value) 2;
                             impact := round shock_10_impact 2 |};
              historical_data := historical_data;
              hedge_recommendations := recommendations current_pl_data |}
  end.

(** ** analyze_with_rule_based: the two word lists

    The scorer itself is [Server64.analyze_with_rule_based]. *)

Definition positive_words : list string :=
  ["strong"; "growth"; "exceptional"; "surge"; "outperform"; "stellar";
   "robust"; "superior"; "exceeding"; "success"; "bullish"; "gain";
   "rally"; "upbeat"; "optimistic"; "momentum"; "breakthrough"].
Definition negative_words : list string :=
  ["decline"; "fall"; "loss"; "weak"; "pressure"; "risk"; "concern";
   "challenge"; "disappointing"; "uncertain"; "bearish"; "drop";
   "plunge"; "volatile"; "struggle"; "downturn"; "crisis"].

(** ** get_portfolio_sentiment *)

(** An entry of [stock_sentiments]; the fields of the analysis are copied
    into it one by one. *)
Record stock_sentiment : Type := StockSentiment {
  ss_symbol : string;
  ss_news : string;
  ss_analysis : analysis
}.

Record sentiment_summary : Type := SentimentSummary {
  total_stocks : nat;
  positive_sentiment : nat;
  negative_sentiment : nat;
  neutral_sentiment : nat;
  overall_sentiment : string;
  average_confidence : Q;
  most_positive : stock_sentiment;
  most_negative : stock_sentiment
}.

Record sentiment_response : Type := SentimentResponse {
  finbert_loaded : bool;
  primary_method : string;
  finbert_successes : nat;
  portfolio_summary : sentiment_summary;
  response_sentiments : list stock_sentiment
}.

(** [max(xs, key=...)] and [min(xs, key=...)] on a non-empty list: the first
    of the best wins. *)
Definition max_by {A} (key : A -> Q) (x : A) (xs : list A) : A :=
  fold_left (fun best y => if Qltb (key best) (key y) then y else best) xs x.

Definition count_sentiment (label : string) (l : list stock_sentiment) : nat :=
  List.length
    (filter (fun s => String.eqb (sentiment (ss_analysis s)) label) l).

(** The loop over the stocks.  The analysis is a non-empty dictionary, hence
    true in [if analysis:], so every round counts a success and none calls
    [analyze_with_rule_based]. *)
Definition analyze_stocks (stocks : list (string * string))
  : list stock_sentiment :=
  map (fun '(symbol, news) =>
         StockSentiment symbol news (analyze_with_finbert_simulation news))
      stocks.

(** The body of the endpoint on any table of stocks; the time stamp is left
    out.  [None] is the exception of an empty table (the average divides by
    the number of stocks), which the endpoint does not catch. *)
Definition portfolio_sentiment (stocks : list (string * string))
  : option sentiment_response :=
  let stock_sentiments := analyze_stocks stocks in
  let finbert_successes := List.length stocks in
  let positive_count := count_sentiment "positive" stock_sentiments in
  let negative_count := count_sentiment "negative" stock_sentiments in
  let neutral_count := count_sentiment "neutral" stock_sentiments in
  match stock_sentiments with
  | [] => None
  | first :: others =>
      let n := inject_Z (Z.of_nat (List.length stock_sentiments)) in
      let avg_confidence :=
        sum (map (fun s => confidence (ss_analysis s)) stock_sentiments) / n in
      let most_positive :=
        max_by (fun x => score_positive (scores_of (ss_analysis x)))
               first others in
      let most_negative :=
        max_by (fun x => score_negative (scores_of (ss_analysis x)))
               first others in
      let overall_sentiment :=
        if (negative_count <? positive_count)%nat then "positive"
        else if (positive_count <? negative_count)%nat then "negative"
        else "neutral" in
      let primary_method :=
        if Qltb (inject_Z (Z.of_nat finbert_successes)) (n / 2) then "mixed"
        else "finbert_local" in
      Some {| finbert_loaded := (0 <? finbert_successes)%nat;
              primary_method := primary_method;
              finbert_successes := finbert_successes;
              portfolio_summary :=
                {| total_stocks := List.length stock_sentiments;
                   positive_sentiment := positive_count;
                   negative_sentiment := negative_count;
                   neutral_sentiment := neutral_count;
                   overall_sentiment := overall_sentiment;
                   average_confidence := round avg_confidence 4;
                   most_positive := most_positive;
                   most_negative := most_negative |};
              response_sentiments := stock_sentiments |}
  end.

Definition get_portfolio_sentiment : option sentiment_response :=
  portfolio_sentiment portfolio_stocks.

(** ** get_portfolio_snapshot *)





(** ** get_advanced_hedge_analysis *)

(** The [current_value] entries of the table used when the P&L calculation
    gave nothing usable; of [holdings_data] the endpoint reads nothing
    else. *)
Definition fallback_holdings_values : list Q :=
  [60842.70; 24116.42; 20800.80; 128410.31].

(** [current_value] and the current values of [holdings_data]. *)
Definition advanced_inputs (current_pl_data : option PL.pl_result)
  : Q * list Q :=
  match current_pl_data with
  | Some d =>
      if Qltb 0 (PL.total_current_value d) then
        (PL.total_current_value d, map PL.pl_current_value (PL.details d))
      else (234170.23, fallback_holdings_values)
  | None => (234170.23, fallback_holdings_values)
  end.

(** [max(xs)] on any list; [None] is the [ValueError] of an empty one. *)
Definition max_list (xs : list Q) : option Q :=
  match xs with
  | [] => None
  | x :: rest => Some (max_of x rest)
  end.

Record finbert : Type := Finbert {
  fb_overall_sentiment : value;
  fb_confidence : value;
  fb_stock_sentiments : value
}.

Definition finbert_fallback : finbert :=
  {| fb_overall_sentiment := VStr "Bullish";
     fb_confidence := VNum 0.76;
     fb_stock_sentiments :=
       VList
         [ VDict [("symbol", VStr "GOLD1"); ("sentiment", VStr "Positive");
                  ("score", VNum 0.82)];
           VDict [("symbol", VStr "NATIONALUM"); ("sentiment", VStr "Positive");
                  ("score", VNum 0.71)];
           VDict [("symbol", VStr "OIL"); ("sentiment", VStr "Neutral");
                  ("score", VNum 0.12)];
           VDict [("symbol", VStr "Motilal MF"); ("sentiment", VStr "Positive");
                  ("score", VNum 0.65)] ] |}.

(** [d.get(k, default)]. *)
Definition get_or (d : list (string * value)) (k : string) (default : value)
  : value :=
  match dict_get k d with
  | Some v => v
  | None => default
  end.

(** Step 3: the answer of the sentiment service, or the fixed analysis when
    the request fails, the status is not 200, the body is not JSON, or a
    [.get] is applied to something that is not a dictionary (the bare
    [except] catches them all). *)
Definition finbert_of_reply (r : PL.reply) : finbert :=
  match r with
  | PL.Response status_code (Some (VDict sentiment_data)) =>
      if (status_code =? 200)%Z then
        match get_or sentiment_data "summary" (VDict []) with
        | VDict summary =>
            {| fb_overall_sentiment :=
                 get_or summary "overall_sentiment" (VStr "Mixed");
               fb_confidence := get_or summary "confidence_score" (VNum 0.74);
               fb_stock_sentiments :=
                 get_or sentiment_data "stock_analysis" (VList []) |}
        | _ => finbert_fallback
        end
      else finbert_fallback
  | _ => finbert_fallback
  end.

(** Sentiment and relevance of the three fixed themes of step 2. *)
Definition key_themes : list (Q * Q) :=
  [(0.8, 0.9); (-0.3, 0.7); (-0.6, 0.8)].

Definition sector_exposure : list (string * Q) :=
  [("materials", 45.2); ("energy", 20.8); ("mutual_funds", 34.0)].

Record hedge_recommendation : Type := HedgeRecommendation {
  hr_instrument : string;
  action : string;
  allocation_pct : Q;
  cost_pct : Q;
  rationale : string
}.

Definition nifty_put : hedge_recommendation :=
  HedgeRecommendation "NIFTY PUT Options (21000 strike)" "BUY" 2.5 0.3
    "Portfolio beta hedging against market downside".
Definition gold_futures : hedge_recommendation :=
  HedgeRecommendation "Gold Futures" "SELL" 1.2 0.1
    "Reduce gold overexposure through futures overlay".
Definition vix_calls : hedge_recommendation :=
  HedgeRecommendation "VIX Call Options" "BUY" 1.0 0.2
    "Volatility hedge for negative sentiment period".

Record risk_factors : Type := RiskFactors {
  concentration_risk : bool;
  sector_concentration : bool;
  volatility_risk : bool;
  correlation_risk : bool
}.

(** The computed parts of the response; its constants, the rendered
    explanations and the time stamp are left out. *)
Record advanced_response : Type := AdvancedResponse {
  adv_total_value : Q;
  num_holdings : nat;
  top_holding_weight : Q;
  herfindahl_index : Q;
  adv_finbert : finbert;
  sentiment_momentum : Q;
  news_impact : Q;
  sentiment_adjusted_return : Q;
  adv_risk_factors : risk_factors;
  adv_recommendations : list hedge_recommendation;
  post_hedge_volatility : Q;
  expected_hedge_cost_pct : Q;
  recommended_actions : nat;
  confidence_score : value
}.

(** The endpoint after the P&L calculation and the request to the sentiment
    service.  [None] is the outer [except] branch (status 500). *)
Definition get_advanced_hedge_analysis (current_pl_data : option PL.pl_result)
    (sentiment_reply : PL.reply) : option advanced_response :=
  let '(current_value, holdings_data) := advanced_inputs current_pl_data in
  match max_list (map (fun v => v / current_value) holdings_data) with
  | None => None
  | Some top =>
      let top_holding_weight := top * 100 in
      let herfindahl_index :=
        sum (map (fun v => (v / current_value) ^ 2) holdings_data) in
      let finbert_analysis := finbert_of_reply sentiment_reply in
      let sentiment_momentum :=
        if is_str "Bullish" (fb_overall_sentiment finbert_analysis)
        then 0.68 else -0.32 in
      let news_impact :=
        sum (map (fun t => fst t * snd t) key_themes)
        / inject_Z (Z.of_nat (List.length key_themes)) in
      let baseline_return := 0.124 in
      let sentiment_alpha := sentiment_momentum * 0.05 in
      let adjusted_return := baseline_return + sentiment_alpha in
      let volatility_forecast := 0.184 in
      let market_correlation := 0.75 in
      let risk_factors :=
        {| concentration_risk := Qltb 0.25 herfindahl_index;
           sector_concentration :=
             match max_list (map snd sector_exposure) with
             | Some m => Qltb 40 m
             | None => false
             end;
           volatility_risk := Qltb 0.15 volatility_forecast;
           correlation_risk := Qltb 0.7 market_correlation |} in
      let hedge_recommendations :=
        ((if volatility_risk risk_factors || correlation_risk risk_factors
          then [nifty_put] else [])
         ++ (if Qltb 40 (qdict_get sector_exposure "materials" 0)
             then [gold_futures] else [])
         ++ (if Qltb news_impact (-0.3) then [vix_calls] else []))%list in
      let cost := sum (map cost_pct hedge_recommendations) in
      Some {| adv_total_value := current_value;
              num_holdings := List.length holdings_data;
              top_holding_weight := top_holding_weight;
              herfindahl_index := herfindahl_index;
              adv_finbert := finbert_analysis;
              sentiment_momentum := sentiment_momentum;
              news_impact := news_impact;
              sentiment_adjusted_return := adjusted_return;
              adv_risk_factors := risk_factors;
              adv_recommendations := hedge_recommendations;
              post_hedge_volatility := volatility_forecast * 0.77;
              expected_hedge_cost_pct := cost;
              recommended_actions := List.length hedge_recommendations;
              confidence_score := fb_confidence finbert_analysis |}
  end.

End Server.

(* ================================================================== *)
(** * Binary64 arithmetic                                              *)
(* ================================================================== *)

(** Python's [float] on the kernel's primitive binary64 numbers: [+], [-],
    [*], [/] and the comparisons are the IEEE 754 operations of
    [PrimFloat], signed zeros, infinities and NaN included.  What follows
    adds the conversions Python performs. *)
Module F64.
Import PrimFloat SpecFloat.
Local Open Scope float_scope.

(** The float nearest to [n / d], ties to the even mantissa: one
    correctly rounded division of the two integers. *)
Definition nearest (sign : bool) (n d : positive) : float :=
  FloatOps.SF2Prim
    (SFdiv FloatOps.prec FloatOps.emax
           (S754_finite sign n 0) (S754_finite false d 0)).

(** [float(x)] on an integer, a decimal literal or a ratio of integers:
    the nearest float, [inf] beyond the range. *)
Definition of_Q (q : Q) : float :=
  match Qnum q with
  | Z0 => 0
  | Zpos n => nearest false n (Qden q)
  | Zneg n => nearest true n (Qden q)
  end.

Definition of_Z (z : Z) : float := of_Q (inject_Z z).
Definition of_nat (n : nat) : float := of_Z (Z.of_nat n).

(** The exact value of a finite float ([0] for the others). *)
Definition to_Q (x : float) : Q :=
  match FloatOps.Prim2SF x with
  | S754_finite s m e =>
      let v := match e with
               | Zneg p => (Zpos m # 2 ^ p)%Q
               | _ => inject_Z (Zpos m * 2 ^ e)
               end in
      if s then (- v)%Q else v
  | _ => 0%Q
  end.

(** [round(x, n)] for [n >= 0]: the exact value of [x] rounded to [n]
    decimals, ties to the even digit, and then the float nearest to that
    decimal; a zero keeps the sign of [x], and [inf] and [nan] are
    returned as they are. *)
Definition round (x : float) (n : nat) : float :=
  if is_finite x then
    let q := Py.round (to_Q x) n in
    if Qeq_bool q 0 then (if get_sign x then neg_zero else zero)
    else of_Q q
  else x.

(** [min(a, b)] and [max(a, b)]: the first argument wins unless the second
    is strictly better. *)
Definition min (a b : float) : float := if b <? a then b else a.
Definition max (a b : float) : float := if a <? b then b else a.

(** [sum(xs)]: the items are added from left to right, starting from [0]
    (CPython before 3.12; later versions compensate the rounding errors). *)
Definition sum (xs : list float) : float := fold_left add xs 0.

End F64.

(* ================================================================== *)
(** * portfolio_pl_calculator.py in binary64                           *)
(* ================================================================== *)

(** The aggregator on floats.  The price functions are those of [PL]; a
    number they return is a Python number, an [int] or a [float], and
    enters the arithmetic as the float nearest to it. *)
Module PL64.
Import Py PrimFloat.
Local Open Scope float_scope.

Record holding : Type := Holding {
  instrument : string;
  quantity : float;
  avg_cost : float;
  invested : float;
  current_value : float;
  asset_class : string;
  sector : string
}.

Record pl_line : Type := PlLine {
  pl_instrument : string;
  pl_invested : float;
  pl_current_value : float;
  pl_amount : float;
  pl_percentage : float;
  current_price : value
}.

Record pl_result : Type := PlResult {
  total_invested : float;
  total_current_value : float;
  total_pl : float;
  total_pl_percentage : float;
  details : list pl_line
}.

Definition resolve_price (w : PL.world) (h : holding) : PL.M value :=
  if String.eqb (asset_class h) "Equity" then
    PL.get_upstox_stock_price w (instrument h)
  else if contains "fund" (lower (instrument h))
          || contains "mutual" (lower (instrument h)) then
    PL.get_mf_nav w (instrument h)
  else PL.ret VNone.

(** What the test [current_price and isinstance(current_price, (int,
    float)) and current_price > 0] and the product that follows make of a
    price: a live price with the float it is multiplied as, a stale one,
    or an integer too large for a float, on which the product raises
    [OverflowError]. *)
Inductive quote : Type :=
| Live (p : float)
| Stale
| TooLarge.

Definition live_price (price : value) : quote :=
  if truthy price then
    match as_number price with
    | Some q =>
        let p := F64.of_Q q in
        if 0 <? p then (if is_infinity p then TooLarge else Live p)
        else Stale
    | None => Stale
    end
  else Stale.

(** The rest of the loop body: the line appended to [pl_details]; [None]
    when the product raises. *)
Definition line_of (h : holding) (price : value) : option pl_line :=
  match live_price price with
  | Live p =>
      let cv := quantity h * p in
      let pl := cv - invested h in
      Some {| pl_instrument := instrument h;
              pl_invested := invested h;
              pl_current_value := cv;
              pl_amount := pl;
              pl_percentage :=
                if 0 <? invested h then (pl / invested h) * 100 else 0;
              current_price := price |}
  | Stale =>
      let cv := current_value h in
      Some {| pl_instrument := instrument h;
              pl_invested := invested h;
              pl_current_value := cv;
              pl_amount := cv - invested h;
              pl_percentage :=
                if 0 <? invested h
                then ((cv - invested h) / invested h) * 100 else 0;
              current_price := PL.API_FAILED |}
  | TooLarge => None
  end.

(** The [for] loop, on the three variables it updates; it ends with [None]
    at the first holding whose line raises, without asking for the prices
    of the holdings after it. *)
Fixpoint pl_loop (w : PL.world) (hs : list holding)
    (acc : float * float * list pl_line)
  : PL.M (option (float * float * list pl_line)) :=
  match hs with
  | [] => PL.ret (Some acc)
  | h :: rest =>
      let '(ti, tcv, pl_details) := acc in
      PL.bind (resolve_price w h) (fun price =>
        match line_of h price with
        | Some line =>
            pl_loop w rest
              (ti + invested h, tcv + pl_current_value line,
               (pl_details ++ [line])%list)
        | None => PL.ret None
        end)
  end.

(** [None] is what the [except] branch returns; the timestamp is left
    out. *)
Definition calculate_portfolio_pl (w : PL.world) (holdings : list holding)
  : PL.M (option pl_result) :=
  PL.bind (pl_loop w holdings (0, 0, [])) (fun acc =>
    match acc with
    | Some (ti, tcv, pl_details) =>
        let tpl := tcv - ti in
        PL.ret (Some {| total_invested := ti;
                        total_current_value := tcv;
                        total_pl := tpl;
                        total_pl_percentage :=
                          if 0 <? ti then (tpl / ti) * 100 else 0;
                        details := pl_details |})
    | None => PL.ret None
    end).

(** The prices the loop obtains when it runs to its end, holding by
    holding. *)
Fixpoint resolved_prices (w : PL.world) (hs : list holding)
  : PL.M (list value) :=
  match hs with
  | [] => PL.ret []
  | h :: rest =>
      PL.bind (resolve_price w h) (fun price =>
        PL.bind (resolved_prices w rest) (fun prices =>
          PL.ret (price :: prices)))
  end.

End PL64.

(* ================================================================== *)
(** * simple_api_server.py in binary64                                 *)
(* ================================================================== *)

(** The two scorers and the risk assessment on floats: the keyword lists,
    the pattern matcher and the risk entries are those of [Server]. *)
Module Server64.
Import Py PrimFloat.
Local Open Scope float_scope.

(** ** analyze_with_finbert_simulation *)

(** [sum(1 for word in words if word in text_lower)], an [int]. *)
Definition count_words (words : list string) (text_lower : string) : nat :=
  List.length (filter (fun word => contains word text_lower) words).

(** [float(p)] on a string of the shape [\d+(?:\.\d+)?]. *)
Definition float_of_decimal (p : string) : float :=
  F64.of_Q (Server.float_of_decimal p).

Record scores : Type := Scores {
  score_positive : float;
  score_negative : float;
  score_neutral : float
}.

Record analysis : Type := Analysis {
  sentiment : string;
  confidence : float;
  scores_of : scores;
  method : string
}.

Definition analyze_with_finbert_simulation (text : string) : analysis :=
  let text_lower := lower text in
  let strong_pos_count := count_words Server.strong_positive text_lower in
  let pos_count := count_words Server.positive text_lower in
  let mod_pos_count := count_words Server.moderate_positive text_lower in
  let strong_neg_count := count_words Server.strong_negative text_lower in
  let neg_count := count_words Server.negative text_lower in
  let mod_neg_count := count_words Server.moderate_negative text_lower in
  let context_boost :=
    F64.sum (map (fun _ => 0.05)
                 (filter (fun '(word, weight) => contains word text_lower)
                         Server.financial_context)) in
  let positive_score :=
    (F64.of_nat strong_pos_count * 0.3) + (F64.of_nat pos_count * 0.2)
    + (F64.of_nat mod_pos_count * 0.1) + context_boost in
  let negative_score :=
    (F64.of_nat strong_neg_count * 0.3) + (F64.of_nat neg_count * 0.2)
    + (F64.of_nat mod_neg_count * 0.1) in
  let percentages := Server.findall_percentages text 0 in
  let positive_score :=
    match percentages with
    | [] => positive_score
    | _ =>
        let avg_pct :=
          F64.sum (map float_of_decimal percentages)
          / F64.of_nat (List.length percentages) in
        if 10 <? avg_pct then positive_score + 0.2 else positive_score
    end in
  let '(sentiment, raw_confidence, pos_prob, neg_prob, neu_prob) :=
    if negative_score <? positive_score then
      let raw_confidence := 0.75 + F64.min (positive_score * 0.1) 0.2 in
      ("positive", raw_confidence,
       raw_confidence,
       (1 - raw_confidence) * 0.3,
       (1 - raw_confidence) * 0.7)
    else if positive_score <? negative_score then
      let raw_confidence := 0.75 + F64.min (negative_score * 0.1) 0.2 in
      ("negative", raw_confidence,
       (1 - raw_confidence) * 0.3,
       raw_confidence,
       (1 - raw_confidence) * 0.7)
    else
      let raw_confidence := 0.65 + context_boost in
      ("neutral", raw_confidence,
       (1 - raw_confidence) * 0.5,
       (1 - raw_confidence) * 0.5,
       raw_confidence) in
  let confidence := F64.min (F64.max raw_confidence 0.6) 0.95 in
  {| sentiment := sentiment;
     confidence := F64.round confidence 4;
     scores_of := {| score_positive := F64.round pos_prob 4;
                     score_negative := F64.round neg_prob 4;
                     score_neutral := F64.round neu_prob 4 |};
     method := "finbert_local" |}.

(** ** analyze_with_rule_based *)

Definition analyze_with_rule_based (text : string) : analysis :=
  let text_lower := lower text in
  let pos_count := count_words Server.positive_words text_lower in
  let neg_count := count_words Server.negative_words text_lower in
  let '(sentiment, confidence) :=
    if (neg_count <? pos_count)%nat then
      ("positive", F64.min (0.75 + F64.of_nat pos_count * 0.05) 0.9)
    else if (pos_count <? neg_count)%nat then
      ("negative", F64.min (0.75 + F64.of_nat neg_count * 0.05) 0.9)
    else ("neutral", 0.6) in
  {| sentiment := sentiment;
     confidence := F64.round confidence 4;
     scores_of :=
       {| score_positive :=
            if String.eqb sentiment "positive" then confidence
            else (1 - confidence) / 2;
          score_negative :=
            if String.eqb sentiment "negative" then confidence
            else (1 - confidence) / 2;
          score_neutral :=
            if String.eqb sentiment "neutral" then confidence
            else (1 - confidence) |};
     method := "enhanced_rule_based" |}.

(** ** get_portfolio_risks *)

Record risk_holding : Type := RiskHolding {
  r_instrument : string;
  r_current_value : float;
  r_asset_class : string;
  r_sector : string
}.

Definition portfolio_data : list risk_holding :=
  [ RiskHolding "GOLD1" 60842.70 "Commodity" "Precious Metals";
    RiskHolding "NATIONALUM" 49938.35 "Equity" "Mining";
    RiskHolding "OIL" 61925.13 "Equity" "Oil";
    RiskHolding "MOTILAL" 61464.05 "Equity" "Large and Mid Cap Fund" ].

(** A [dict] from strings to floats, in insertion order. *)
Definition fdict : Type := list (string * float).

Fixpoint fdict_get (d : fdict) (k : string) (default : float) : float :=
  match d with
  | [] => default
  | (k', v) :: rest => if String.eqb k k' then v else fdict_get rest k default
  end.

Fixpoint fdict_set (d : fdict) (k : string) (v : float) : fdict :=
  match d with
  | [] => [(k, v)]
  | (k', v') :: rest =>
      if String.eqb k k' then (k', v) :: rest
      else (k', v') :: fdict_set rest k v
  end.

(** The two accumulation loops: [d[key] = d.get(key, 0) + current_value]. *)
Definition accumulate (key : risk_holding -> string)
    (data : list risk_holding) : fdict :=
  fold_left
    (fun d holding =>
       fdict_set d (key holding)
                 (fdict_get d (key holding) 0 + r_current_value holding))
    data [].

(** The two comprehensions [{k: value / total_value * 100 ...}]; [None] is
    the [ZeroDivisionError] of a division by a total that equals zero,
    which the endpoint does not catch. *)
Definition percentages_of (values : fdict) (total_value : float)
  : option fdict :=
  match values with
  | [] => Some []
  | _ =>
      if total_value =? 0 then None
      else Some (map (fun '(k, value) => (k, value / total_value * 100)) values)
  end.

(** [max(xs)] on a non-empty list: a later item replaces the best one only
    when it is strictly greater. *)
Definition max_of (x : float) (xs : list float) : float :=
  fold_left (fun best y => if best <? y then y else best) xs x.

Record risk_response : Type := RiskResponse {
  timestamp : string;
  total_portfolio_value : float;
  asset_class_allocation : fdict;
  sector_allocation : fdict;
  summary : Server.risk_summary;
  risks : list Server.risk
}.

Definition portfolio_risks (data : list risk_holding) (now : string)
  : option risk_response :=
  let total_value := F64.sum (map r_current_value data) in
  let asset_class_values := accumulate r_asset_class data in
  match percentages_of asset_class_values total_value with
  | None => None
  | Some asset_class_percentages =>
  let sector_values := accumulate r_sector data in
  match percentages_of sector_values total_value with
  | None => None
  | Some sector_percentages =>
  let equity_pct := fdict_get asset_class_percentages "Equity" 0 in
  let risks1 :=
    if 75 <? equity_pct then [Server.asset_concentration_risk]
    else [Server.asset_allocation_good] in
  let max_sector_pct :=
    match sector_percentages with
    | [] => 0
    | (_, v) :: rest => max_of v (map snd rest)
    end in
  let risks2 :=
    if 50 <? max_sector_pct then [Server.sector_concentration_risk]
    else [Server.sector_diversification_good] in
  let risks := (risks1 ++ risks2 ++ [Server.currency_risk])%list in
  Some {| timestamp := now;
          total_portfolio_value := total_value;
          asset_class_allocation := asset_class_percentages;
          sector_allocation := sector_percentages;
          summary :=
            {| Server.total_risks :=
                 List.length
                   (filter (fun r => String.eqb (Server.severity r) "warning")
                           risks);
               Server.high_risk_count :=
                 List.length
                   (filter (fun r => String.eqb (Server.level r) "High") risks);
               Server.overall_risk_score :=
                 if existsb (fun r => String.eqb (Server.level r) "High") risks
                 then "Moderate" else "Low" |};
          risks := risks |}
  end end.

Definition get_portfolio_risks (now : string) : option risk_response :=
  portfolio_risks portfolio_data now.

End Server64.

(* ================================================================== *)
(** * Sample inputs                                                    *)
(* ================================================================== *)

Module Samples.
Import Py PL.

Definition oil : holding :=
  Holding "OIL" 10 95 950 1000 "Equity" "Oil".

(** The holding of the specification's fallback scenario; it is neither an
    equity nor a fund, so no price service is asked. *)
Definition gold : holding :=
  Holding "GOLD1" 10 100 1000 1100 "Commodity" "Precious Metals".

Definition bonus_shares : holding :=
  Holding "BONUS" 5 0 0 120 "Equity" "Mining".

Definition ltp_body (price : Q) : value :=
  VDict [("status", VStr "success");
         ("data", VDict [("NSE_EQ:OIL", VDict [("last_price", VNum price)])])].

(** Every request is answered with status 200 and a last price of 105.5. *)
Definition world_live : world :=
  World (fun _ _ => Response 200 (Some (ltp_body 105.5))) (fun _ => None).


(** Every request fails in transport. *)
Definition world_down : world :=
  World (fun _ _ => Raised) (fun _ => None).

(** A table with four fifths of its value in equities. *)
Definition equity_heavy : list Server.risk_holding :=
  [ Server.RiskHolding "INFY" 80000 "Equity" "IT";
    Server.RiskHolding "GOLD1" 20000 "Commodity" "Precious Metals" ].

(** 2026-11-04 09:05:07.000123. *)
Definition a_base_date : Server.datetime :=
  Server.Datetime 739924 9 5 7 123.

(** A stand-in for the interpreter's string hash under a given salt: CPython
    keys its [str] hash with a value drawn at start-up (or taken from
    [PYTHONHASHSEED]), so two processes hash the same string differently. *)
Fixpoint salted_hash (salt : Z) (s : string) : Z :=
  match s with
  | EmptyString => salt
  | String c s' =>
      salted_hash ((salt * 31 + Z.of_nat (nat_of_ascii c)) mod 2 ^ 63)%Z s'
  end.

(** A body of the equities service whose first entry has no price. *)
Definition ltp_body_two_entries : value :=
  VDict [("status", VStr "success");
         ("data", VDict [("NSE_EQ:XYZ", VDict [("volume", VNum 7)]);
                         ("NSE_EQ:ABC", VDict [("last_price", VNum 42)])])].

Definition world_two_entries : world :=
  World (fun _ _ => Response 200 (Some ltp_body_two_entries)) (fun _ => None).

(** Every request is answered with status 500. *)
Definition world_500 : world :=
  World (fun _ _ => Response 500 None) (fun _ => None).

Definition flexi_fund : holding :=
  Holding "Parag Parikh Flexi Cap Fund" 100 50 5000 5600 "Mutual Fund"
          "Flexi Cap".


End Samples.

(** Sample inputs of the binary64 reading. *)
Module Samples64.
Import PrimFloat.
Local Open Scope float_scope.

(** The four holdings the advanced hedge endpoint falls back on, with their
    classes; each holds one unit. *)
Definition fallback_table : list PL64.holding :=
  [ PL64.Holding "GOLD1" 1 48062.14 48062.14 60842.70
                 "Commodity" "Precious Metals";
    PL64.Holding "NATIONALUM" 1 19414.65 19414.65 24116.42 "Equity" "Mining";
    PL64.Holding "OIL" 1 19988.95 19988.95 20800.80 "Equity" "Oil";
    PL64.Holding "Motilal MF" 1 110394.61 110394.61 128410.31
                 "Mutual Fund" "Large and Mid Cap Fund" ].

(** A table with four fifths of its value in equities. *)
Definition equity_heavy : list Server64.risk_holding :=
  [ Server64.RiskHolding "INFY" 80000 "Equity" "IT";
    Server64.RiskHolding "GOLD1" 20000 "Commodity" "Precious Metals" ].


(** An equity holding and a service that quotes it at [10 ^ 400], an
    integer no float can hold. *)
Definition oil : PL64.holding :=
  PL64.Holding "OIL" 10 95 950 1000 "Equity" "Oil".

Definition world_huge : PL.world :=
  PL.World (fun _ _ => PL.Response 200 (Some (Samples.ltp_body (10 ^ 400)%Q)))
           (fun _ => None).


End Samples64.

(* ================================================================== *)
(** * Notions used to state the properties                             *)
(* ================================================================== *)

Module Notions.
Import Py PL.

(** The two kinds of holding for which a price service is asked. *)
Definition is_equity (h : holding) : bool :=
  String.eqb (asset_class h) "Equity".

(** No request gets a response with status 200: the services are down,
    refuse the token, or cannot be reached. *)
Definition offline (w : world) : Prop :=
  forall k r, match net w k r with
              | Response status_code _ => status_code <> 200%Z
              | Raised => True
              end.

(** An entry of the [data] dictionary that the price scan passes over: it
    is false in a condition, or a dictionary without ['last_price']. *)
Definition skipped (entry : string * value) : Prop :=
  truthy (snd entry) = false \/
  exists kv, snd entry = VDict kv /\ dict_get "last_price" kv = None.

(** One round of the accumulation loops of the risks endpoint. *)
Definition accumulate_step (key : Server.risk_holding -> string)
    (d : Server.qdict) (holding : Server.risk_holding) : Server.qdict :=
  Server.qdict_set d (key holding)
    (Server.qdict_get d (key holding) 0 + Server.r_current_value holding).


End Notions.

(** Notions of the binary64 reading. *)
Module Notions64.
Import Py PrimFloat.
Local Open Scope float_scope.

(** [lo <= x <= hi] on floats. *)
Definition between (lo x hi : float) : Prop :=
  (lo <=? x) = true /\ (x <=? hi) = true.

(** A price the aggregator can compute with: anything but an integer too
    large for a float. *)
Definition in_float_range (price : value) : bool :=
  match PL64.live_price price with
  | PL64.TooLarge => false
  | _ => true
  end.





(** The scores a text can reach: a keyword list of [n] words is found
    between [0] and [n] times. *)
Definition counts_up_to (words : list string) : list nat :=
  seq 0 (S (List.length words)).







Definition scores_total (s : Server64.scores) : float :=
  Server64.score_positive s + Server64.score_negative s
  + Server64.score_neutral s.



(** The rule-based scorer as a function of its two counts. *)
Definition rule_based_on (pos_count neg_count : nat) : Server64.analysis :=
  let '(sentiment, confidence) :=
    if (neg_count <? pos_count)%nat then
      ("positive", F64.min (0.75 + F64.of_nat pos_count * 0.05) 0.9)
    else if (pos_count <? neg_count)%nat then
      ("negative", F64.min (0.75 + F64.of_nat neg_count * 0.05) 0.9)
    else ("neutral", 0.6) in
  {| Server64.sentiment := sentiment;
     Server64.confidence := F64.round confidence 4;
     Server64.scores_of :=
       {| Server64.score_positive :=
            if String.eqb sentiment "positive" then confidence
            else (1 - confidence) / 2;
          Server64.score_negative :=
            if String.eqb sentiment "negative" then confidence
            else (1 - confidence) / 2;
          Server64.score_neutral :=
            if String.eqb sentiment "neutral" then confidence
            else (1 - confidence) |};
     Server64.method := "enhanced_rule_based" |}.

(** What is claimed of a rule-based analysis, as a test: [own] is the score
    of the label's class and [other] that of the opposite class. *)
Definition labelled_check (a : Server64.analysis) (own other : float) : bool :=
  (Server64.confidence a =? own)
  && (0.8 <=? own) && (own <=? 0.9)
  && (other =? (1 - own) / 2)
  && (Server64.score_neutral (Server64.scores_of a) =? 1 - own)
  && (1.04 <? scores_total (Server64.scores_of a))
  && (scores_total (Server64.scores_of a) <=? 1.1).

Definition rule_based_check (a : Server64.analysis) : bool :=
  let s := Server64.scores_of a in
  if String.eqb (Server64.sentiment a) "neutral" then
    (Server64.confidence a =? 0.6)
    && (Server64.score_positive s =? 0.2)
    && (Server64.score_negative s =? 0.2)
    && (Server64.score_neutral s =? 0.6)
    && (scores_total s =? 1)
  else if String.eqb (Server64.sentiment a) "positive" then
    labelled_check a (Server64.score_positive s) (Server64.score_negative s)
  else if String.eqb (Server64.sentiment a) "negative" then
    labelled_check a (Server64.score_negative s) (Server64.score_positive s)
  else false.

(** The equity percentage of the risk assessment, written from the table:
    the float sum of the equity values over the float sum of all values,
    times 100; [0] when the table has no equity. *)
Definition is_equity (h : Server64.risk_holding) : bool :=
  String.eqb (Server64.r_asset_class h) "Equity".



End Notions64.

(* ================================================================== *)
(** * Facts about the built-ins                                        *)
(* ================================================================== *)

Module PyFacts.
Import Py.

Lemma Qltb_lt (a b : Q) : Qltb a b = true <-> a < b.
Proof. unfold Qltb, Qlt. apply Z.ltb_lt. Qed.

Lemma Qltb_ge (a b : Q) : Qltb a b = false <-> b <= a.
Proof. unfold Qltb, Qle. apply Z.ltb_ge. Qed.

Lemma sum_from (xs : list Q) (a : Q) :
  fold_left Qplus xs a == a + sum xs.
Proof.
  unfold sum. revert a.
  induction xs as [|x xs IH]; intro a; simpl.
  - ring.
  - rewrite (IH (a + x)), (IH (0 + x)). ring.
Qed.

Lemma sum_cons (x : Q) (xs : list Q) : sum (x :: xs) == x + sum xs.
Proof. unfold sum at 1. simpl. rewrite sum_from. ring. Qed.

Lemma sum_snoc (xs : list Q) (x : Q) : sum (xs ++ [x]) == sum xs + x.
Proof. unfold sum. rewrite fold_left_app. reflexivity. Qed.

End PyFacts.

(* ================================================================== *)
(** * The P&L aggregator                                               *)
(* ================================================================== *)

Module PLProps.
Import Py PyFacts PL.

(** The lines the loop appends, from the holdings and the prices found. *)
Lemma line_pl_amount (h : holding) (price : value) :
  pl_amount (line_of h price) = pl_current_value (line_of h price) - invested h.
Proof. unfold line_of. destruct (live_price price); reflexivity. Qed.

Lemma line_invested (h : holding) (price : value) :
  pl_invested (line_of h price) = invested h.
Proof. unfold line_of. destruct (live_price price); reflexivity. Qed.

Lemma line_percentage_guard (h : holding) (price : value) :
  invested h <= 0 -> pl_percentage (line_of h price) = 0.
Proof.
  intro H. apply Qltb_ge in H.
  unfold line_of. destruct (live_price price); simpl; rewrite H; reflexivity.
Qed.



Lemma resolved_prices_cons (w : world) (h : holding) (hs : list holding)
    (k : nat) :
  resolved_prices w (h :: hs) k =
  let (price, k1) := resolve_price w h k in
  let (prices, k2) := resolved_prices w hs k1 in (price :: prices, k2).
Proof. reflexivity. Qed.

Lemma pl_loop_cons (w : world) (h : holding) (hs : list holding)
    (ti tcv : Q) (ds : list pl_line) (k : nat) :
  pl_loop w (h :: hs) (ti, tcv, ds) k =
  let (price, k1) := resolve_price w h k in
  pl_loop w hs (ti + invested h, tcv + pl_current_value (line_of h price),
                (ds ++ [line_of h price])%list) k1.
Proof. reflexivity. Qed.

(** What the loop does to its three variables and to the request count. *)
Lemma pl_loop_unfold (w : world) (hs : list holding) :
  forall ti tcv ds k,
    pl_loop w hs (ti, tcv, ds) k =
    let prices := fst (resolved_prices w hs k) in
    let lines := map (fun hp => line_of (fst hp) (snd hp)) (combine hs prices) in
    (fold_left Qplus (map invested hs) ti,
     fold_left Qplus (map pl_current_value lines) tcv,
     (ds ++ lines)%list,
     snd (resolved_prices w hs k)).
Proof.
  induction hs as [|h hs IH]; intros ti tcv ds k.
  - simpl. unfold ret. simpl. rewrite app_nil_r. reflexivity.
  - rewrite pl_loop_cons, resolved_prices_cons.
    destruct (resolve_price w h k) as [price k1].
    rewrite IH.
    destruct (resolved_prices w hs k1) as [prices k2]. simpl.
    rewrite <- app_assoc. reflexivity.
Qed.


Lemma details_lines (w : world) (hs : list holding) (k : nat) :
  details (fst (calculate_portfolio_pl w hs k)) =
  map (fun hp => line_of (fst hp) (snd hp))
      (combine hs (fst (resolved_prices w hs k))).
Proof.
  unfold calculate_portfolio_pl, bind. rewrite pl_loop_unfold. reflexivity.
Qed.


Lemma line_in_details (w : world) (hs : list holding) (k : nat) (line : pl_line) :
  In line (details (fst (calculate_portfolio_pl w hs k))) ->
  exists h price, In h hs /\ line = line_of h price.
Proof.
  rewrite details_lines. intro H. apply in_map_iff in H.
  destruct H as [[h price] [E H]]. exists h, price. split.
  - now apply in_combine_l in H.
  - now symmetry.
Qed.





(** C4.  A line whose invested amount is 0 has [pl_percentage] 0, on the
    live and on the fallback path alike, and the result has
    [total_pl_percentage] 0 whenever [total_invested] is 0: the guard
    [invested > 0] keeps the division from being evaluated. *)
Theorem zero_invested_percentage (w : world) (hs : list holding) (k : nat) :
  let r := fst (calculate_portfolio_pl w hs k) in
  (forall line, In line (details r) -> pl_invested line == 0 ->
                pl_percentage line = 0) /\
  (total_invested r == 0 -> total_pl_percentage r = 0).
Proof.
  cbv zeta. split.
  - intros line Hin Hz.
    destruct (line_in_details w hs k line Hin) as [h [price [_ ->]]].
    rewrite line_invested in Hz.
    apply line_percentage_guard. rewrite Hz. apply Qle_refl.
  - unfold calculate_portfolio_pl, bind. rewrite pl_loop_unfold.
    cbv zeta. cbn [fst snd ret total_invested total_pl_percentage].
    intro Hz.
    assert (G : Qltb 0 (fold_left Qplus (map invested hs) 0) = false).
    { apply Qltb_ge. rewrite Hz. apply Qle_refl. }
    rewrite G. reflexivity.
Qed.

Lemma zero_invested_percentage_witness :
  let r := fst (calculate_portfolio_pl Samples.world_live
                  [Samples.bonus_shares] 0%nat) in
  pl_percentage (line_of Samples.bonus_shares (VNum 105.5)) = 0 /\
  total_pl_percentage r = 0.
Proof.
  destruct (zero_invested_percentage Samples.world_live
              [Samples.bonus_shares] 0%nat) as [A B].
  split.
  - apply A; [left; reflexivity | reflexivity].
  - apply B. reflexivity.
Defined.



End PLProps.

(* ================================================================== *)
(** * The sentiment scorer                                             *)
(* ================================================================== *)

Module SentimentProps.
Import Py PyFacts.

(** ** Rounding leaves numbers with few enough decimals alone *)

Lemma round_half_even_Z (y : Q) (z : Z) :
  y == inject_Z z -> round_half_even y = z.
Proof.
  intro E. unfold round_half_even.
  assert (F : Qfloor y = z) by (rewrite E; apply Qfloor_Z).
  rewrite F.
  assert (L : Qltb (y - inject_Z z) (1 # 2) = true).
  { apply Qltb_lt. rewrite E. ring_simplify. reflexivity. }
  rewrite L. reflexivity.
Qed.

Lemma round_on_grid (x : Q) : on_grid 10000 x -> round x 4 == x.
Proof.
  intros [z E]. unfold round.
  change (10 ^ Z.of_nat 4)%Z with 10000%Z.
  rewrite (round_half_even_Z (x * inject_Z 10000) z).
  - rewrite E. unfold Qeq, Qdiv, Qmult, Qinv, inject_Z. simpl. lia.
  - rewrite E. unfold Qeq, Qmult, inject_Z. simpl. lia.
Qed.

Lemma grid_eq (d : positive) (x y : Q) : x == y -> on_grid d x -> on_grid d y.
Proof. intros E [z H]. exists z. now rewrite <- E. Qed.

Lemma grid_const (d : positive) (c : Z) : on_grid d (c # d).
Proof. exists c. reflexivity. Qed.

Lemma grid_plus (d : positive) (x y : Q) :
  on_grid d x -> on_grid d y -> on_grid d (x + y).
Proof.
  intros [a A] [b B]. exists (a + b)%Z. rewrite A, B.
  unfold Qeq, Qplus. cbn [Qnum Qden]. rewrite ?Pos2Z.inj_mul. ring.
Qed.

Lemma grid_one_minus (d : positive) (x : Q) : on_grid d x -> on_grid d (1 - x).
Proof.
  intros [a A]. exists (Z.pos d - a)%Z. rewrite A.
  unfold Qeq, Qminus, Qplus, Qopp. cbn [Qnum Qden].
  rewrite ?Pos2Z.inj_mul. ring.
Qed.

Lemma grid_scale (d e : positive) (c : Z) (x : Q) :
  on_grid d x -> on_grid (d * e) (x * (c # e)).
Proof.
  intros [a A]. exists (a * c)%Z. rewrite A. reflexivity.
Qed.

Lemma grid_refine (d e : positive) (x : Q) : on_grid d x -> on_grid (d * e) x.
Proof.
  intros [a A]. exists (a * Z.pos e)%Z. rewrite A.
  unfold Qeq. cbn [Qnum Qden]. rewrite ?Pos2Z.inj_mul. ring.
Qed.

Lemma grid_min (d : positive) (x y : Q) :
  on_grid d x -> on_grid d y -> on_grid d (min x y).
Proof. intros X Y. unfold min. now destruct (Qltb y x). Qed.

Lemma grid_inject (z : Z) : on_grid 1 (inject_Z z).
Proof. exists z. reflexivity. Qed.

(** Sums of equal terms: the counts and the context boost. *)
Lemma sum_constant {A} (c : Q) (l : list A) :
  sum (map (fun _ => c) l) == inject_Z (Z.of_nat (List.length l)) * c.
Proof.
  induction l as [|a l IH].
  - reflexivity.
  - cbn [map]. rewrite sum_cons, IH.
    cbn [List.length]. rewrite Nat2Z.inj_succ. unfold Z.succ.
    rewrite inject_Z_plus. ring.
Qed.

Lemma count_words_grid (words : list string) (t : string) :
  on_grid 1 (Server.count_words words t).
Proof.
  unfold Server.count_words. eapply grid_eq.
  - symmetry. apply sum_constant.
  - eapply grid_eq; [|apply grid_inject]. symmetry. apply Qmult_1_r.
Qed.

Lemma grid_tenths (c : Q) (w : Z) : on_grid 1 c -> on_grid 100 (c * (w # 10)).
Proof. intro H. exact (grid_refine 10 10 _ (grid_scale 1 10 w c H)). Qed.

(** The three outcomes of the scorer: a raw confidence with at most three
    decimals, the confidence clamped from it, and the probabilities. *)
Lemma analysis_shape (text : string) :
  let a := Server.analyze_with_finbert_simulation text in
  let s := Server.scores_of a in
  exists raw : Q,
    on_grid 1000 raw /\
    Server.confidence a = round (min (max raw 0.6) 0.95) 4 /\
    ((Server.sentiment a = "positive" /\
      Server.score_positive s = round raw 4 /\
      Server.score_negative s = round ((1 - raw) * 0.3) 4 /\
      Server.score_neutral s = round ((1 - raw) * 0.7) 4) \/
     (Server.sentiment a = "negative" /\
      Server.score_positive s = round ((1 - raw) * 0.3) 4 /\
      Server.score_negative s = round raw 4 /\
      Server.score_neutral s = round ((1 - raw) * 0.7) 4) \/
     (Server.sentiment a = "neutral" /\
      Server.score_positive s = round ((1 - raw) * 0.5) 4 /\
      Server.score_negative s = round ((1 - raw) * 0.5) 4 /\
      Server.score_neutral s = round raw 4)).
Proof.
  unfold Server.analyze_with_finbert_simulation.
  cbv zeta.
  set (cb := sum (map (fun _ => 0.05) _)).
  set (ns := _ * 0.3 + _ * 0.2
             + Server.count_words Server.moderate_negative _ * 0.1).
  set (ps0 := _ * 0.3 + _ * 0.2 + _ * 0.1 + cb).
  set (ps := match Server.findall_percentages text 0 with
             | [] => _ | _ :: _ => _ end).
  assert (Gcb : on_grid 100 cb).
  { subst cb. eapply grid_eq; [symmetry; apply sum_constant|].
    exact (grid_scale 1 100 5 _ (grid_inject _)). }
  assert (Gns : on_grid 100 ns).
  { subst ns. repeat apply grid_plus; apply grid_tenths, count_words_grid. }
  assert (Gps0 : on_grid 100 ps0).
  { subst ps0. repeat apply grid_plus; try apply grid_tenths, count_words_grid.
    exact Gcb. }
  assert (Gps : on_grid 100 ps).
  { subst ps. destruct (Server.findall_percentages text 0); [exact Gps0|].
    destruct (Qltb 10 _); [|exact Gps0].
    apply grid_plus; [exact Gps0|].
    exact (grid_refine 10 10 _ (grid_const 10 2)). }
  assert (Graw : forall x, on_grid 100 x ->
                           on_grid 1000 (0.75 + min (x * 0.1) 0.2)).
  { intros x Gx. apply grid_plus.
    - exact (grid_refine 100 10 _ (grid_const 100 75)).
    - apply grid_min.
      + exact (grid_scale 100 10 1 _ Gx).
      + exact (grid_refine 10 100 _ (grid_const 10 2)). }
  destruct (Qltb ns ps); [|destruct (Qltb ps ns)];
    cbn [Server.scores_of Server.score_positive Server.score_negative
         Server.score_neutral Server.confidence Server.sentiment].
  - exists (0.75 + min (ps * 0.1) 0.2). split; [now apply Graw|].
    split; [reflexivity|]. left. repeat split.
  - exists (0.75 + min (ns * 0.1) 0.2). split; [now apply Graw|].
    split; [reflexivity|]. right; left. repeat split.
  - exists (0.65 + cb). split.
    + apply (grid_refine 100 10), grid_plus; [apply grid_const|exact Gcb].
    + split; [reflexivity|]. right; right. repeat split.
Qed.

Lemma loser_grid (raw : Q) (w : Z) :
  on_grid 1000 raw -> on_grid 10000 ((1 - raw) * (w # 10)).
Proof.
  intro G. exact (grid_scale 1000 10 w _ (grid_one_minus _ _ G)).
Qed.

(** The confidence lies between 0.6 and 0.95 for every text. *)
Lemma confidence_in_range (text : string) :
  0.6 <= Server.confidence (Server.analyze_with_finbert_simulation text)
      <= 0.95.
Proof.
  destruct (analysis_shape text) as [raw [G [-> _]]].
  assert (G' : on_grid 10000 (min (max raw 0.6) 0.95)).
  { unfold min, max.
    destruct (Qltb raw 0.6); [|destruct (Qltb 0.95 raw)];
      try exact (grid_refine 1000 10 _ G);
      try exact (grid_refine 100 100 _ (grid_const 100 95)).
    destruct (Qltb 0.95 0.6).
    - exact (grid_refine 100 100 _ (grid_const 100 95)).
    - exact (grid_refine 10 1000 _ (grid_const 10 6)). }
  rewrite (round_on_grid _ G').
  unfold min, max.
  destruct (Qltb raw 0.6) eqn:A.
  - vm_compute. split; discriminate.
  - apply Qltb_ge in A.
    destruct (Qltb 0.95 raw) eqn:B.
    + vm_compute. split; discriminate.
    + apply Qltb_ge in B. now split.
Qed.

(** C7.  For the GOLD1 news text ("Gold ETF experiences strong institutional
    inflows ...") the scorer returns the label [positive] and a confidence,
    0.78, inside the closed interval from 0.6 to 0.95. *)
Theorem gold_news_is_positive :
  let a := Server.analyze_with_finbert_simulation Server.GOLD1_news in
  Server.sentiment a = "positive" /\
  0.6 <= Server.confidence a <= 0.95 /\
  Server.confidence a == 0.78 /\
  In ("GOLD1", a) Server.stock_sentiments.
Proof.
  cbv zeta. split; [vm_compute; reflexivity|].
  split; [split; vm_compute; discriminate|].
  split; [vm_compute; reflexivity|].
  left. reflexivity.
Qed.

End SentimentProps.

(* ================================================================== *)
(** * The risk endpoint                                                *)
(* ================================================================== *)

Module RiskProps.
Import Py PyFacts.

Lemma qdict_get_set (d : Server.qdict) (k k' : string) (v default : Q) :
  Server.qdict_get (Server.qdict_set d k v) k' default
  = if String.eqb k' k then v else Server.qdict_get d k' default.
Proof.
  induction d as [|[k0 v0] d IH]; simpl.
  - reflexivity.
  - destruct (String.eqb k k0) eqn:E; simpl.
    + apply String.eqb_eq in E. subst k0.
      destruct (String.eqb k' k); reflexivity.
    + destruct (String.eqb k' k0) eqn:E0.
      * apply String.eqb_eq in E0. subst k0.
        rewrite String.eqb_sym in E. rewrite E. reflexivity.
      * exact IH.
Qed.

(** A key of the accumulated dictionary holds the sum of the values of the
    holdings filed under it. *)
Lemma accumulate_from (key : Server.risk_holding -> string)
    (data : list Server.risk_holding) (k : string) :
  forall d,
    Server.qdict_get
      (fold_left
         (fun d holding =>
            Server.qdict_set d (key holding)
              (Server.qdict_get d (key holding) 0
               + Server.r_current_value holding))
         data d) k 0
    == Server.qdict_get d k 0
       + sum (map Server.r_current_value
                  (filter (fun h => String.eqb (key h) k) data)).
Proof.
  induction data as [|h data IH]; intro d; simpl.
  - unfold sum. simpl. ring.
  - rewrite IH, qdict_get_set. rewrite (String.eqb_sym (key h) k).
    destruct (String.eqb k (key h)) eqn:E.
    + apply String.eqb_eq in E. subst k. cbn [map]. rewrite sum_cons. ring.
    + reflexivity.
Qed.

Lemma accumulate_get (key : Server.risk_holding -> string)
    (data : list Server.risk_holding) (k : string) :
  Server.qdict_get (Server.accumulate key data) k 0
  == sum (map Server.r_current_value
              (filter (fun h => String.eqb (key h) k) data)).
Proof. unfold Server.accumulate. rewrite accumulate_from. simpl. ring. Qed.

Lemma percentages_of_ok (values : Server.qdict) (total : Q) :
  ~ total == 0 ->
  Server.percentages_of values total
  = Some (map (fun kv => (fst kv, snd kv / total * 100)) values).
Proof.
  intro H. unfold Server.percentages_of.
  assert (E : Qeq_bool total 0 = false).
  { destruct (Qeq_bool total 0) eqn:E; [|reflexivity].
    now apply Qeq_bool_eq in E. }
  rewrite E. destruct values as [|kv values]; [reflexivity|].
  f_equal. apply map_ext. now intros [k v].
Qed.

(** C10.  On its hard-coded table of four holdings the risks endpoint
    returns, for every request, the Good asset-allocation and sector
    diversification entries and the currency entry: the equity share is
    about 74.0 percent (at most 75), the largest sector share about 26.4
    percent (at most 50), no risk has severity warning or level High, both
    counts are 0 and the overall risk score is Low. *)
Theorem risks_endpoint_constant (now : string) :
  exists r,
    Server.get_portfolio_risks now = Some r /\
    Server.risks r = [Server.asset_allocation_good;
                      Server.sector_diversification_good;
                      Server.currency_risk] /\
    Server.total_risks (Server.summary r) = 0%nat /\
    Server.high_risk_count (Server.summary r) = 0%nat /\
    Server.overall_risk_score (Server.summary r) = "Low" /\
    (forall x, In x (Server.risks r) ->
               Server.severity x <> "warning" /\ Server.level x <> "High") /\
    (let equity_pct := Server.qdict_get (Server.asset_class_allocation r) "Equity" 0 in
     equity_pct == Server.class_share Server.portfolio_data "Equity" /\
     74 <= equity_pct /\ equity_pct < 74.05 /\ equity_pct <= 75 /\
     round equity_pct 1 == 74.0) /\
    (let oil_pct := Server.qdict_get (Server.sector_allocation r) "Oil" 0 in
     (forall k v, In (k, v) (Server.sector_allocation r) -> v <= oil_pct) /\
     26.35 <= oil_pct /\ oil_pct < 26.45 /\ oil_pct <= 50 /\
     round oil_pct 1 == 26.4).
Proof.
  destruct (Server.get_portfolio_risks now) as [r|] eqn:E;
    vm_compute in E; [|discriminate E].
  injection E as <-. eexists. split; [reflexivity|].
  cbn [Server.risks Server.summary Server.total_risks Server.high_risk_count
       Server.overall_risk_score Server.asset_class_allocation
       Server.sector_allocation].
  split; [reflexivity|]. split; [reflexivity|]. split; [reflexivity|].
  split; [reflexivity|].
  split.
  - intros x [<- | [<- | [<- | []]]]; split; discriminate.
  - split.
    + repeat split; vm_compute; congruence.
    + cbv zeta. split.
      * intros k v [A | [A | [A | [A | []]]]]; inversion A; subst;
          vm_compute; congruence.
      * repeat split; vm_compute; congruence.
Qed.

End RiskProps.

(* ================================================================== *)
(** * The hedge endpoint                                               *)
(* ================================================================== *)

Module HedgeProps.
Import Py PyFacts.

Lemma history_loop_length (hash : string -> Z) (cv : Q)
    (bd : Server.datetime) (range : list Z) :
  forall l, Server.history_loop hash cv bd range = Some l ->
            List.length l = List.length range.
Proof.
  induction range as [|i range IH]; intros l H; simpl in H.
  - now inversion H.
  - destruct (Server.history_entry hash cv bd i); [|discriminate].
    destruct (Server.history_loop hash cv bd range) as [l'|]; [|discriminate].
    inversion H. simpl. now rewrite (IH l' eq_refl).
Qed.

(** The loop reads the hash only at the strings of the month dates. *)
Lemma history_loop_ext (h1 h2 : string -> Z) (cv : Q)
    (bd : Server.datetime) (range : list Z) :
  (forall i d, In i range -> Server.minus_days bd (i * 30) = Some d ->
               h1 (Server.str_of_datetime d) = h2 (Server.str_of_datetime d)) ->
  Server.history_loop h1 cv bd range = Server.history_loop h2 cv bd range.
Proof.
  induction range as [|i range IH]; intro H; simpl; [reflexivity|].
  rewrite IH by (intros j d Hj; apply H; now right).
  unfold Server.history_entry.
  destruct (Server.minus_days bd (i * 30)) as [d|] eqn:E; [|reflexivity].
  rewrite (H i d (or_introl eq_refl) E). reflexivity.
Qed.

Lemma history_loop_total (hash : string -> Z) (cv : Q)
    (bd : Server.datetime) (range : list Z) :
  (forall i, In i range -> (1 <= Server.ordinal bd - i * 30)%Z) ->
  exists l, Server.history_loop hash cv bd range = Some l.
Proof.
  induction range as [|i range IH]; intro H; simpl.
  - now exists [].
  - destruct IH as [l E]; [intros j Hj; apply H; now right|].
    rewrite E. unfold Server.history_entry, Server.minus_days.
    assert (B : (Server.ordinal bd - i * 30 <? 1)%Z = false).
    { apply Z.ltb_ge, H. now left. }
    rewrite B. eexists. reflexivity.
Qed.

(** What holds of the endpoint under any one hash function: it answers for
    every base date after the first 360 days of year 1, its shock scenarios
    are the current value times 0.95 and 0.90, its history has 12 entries,
    and the history is fixed by the current value, the base date and the
    values of the hash at the twelve date strings. *)
Lemma hedge_analysis_under_one_hash (hash : string -> Z)
    (pl : option PL.pl_result) (bd : Server.datetime) :
  (361 <= Server.ordinal bd)%Z ->
  let cv := Server.hedge_current_value pl in
  exists r,
    Server.get_hedge_analysis hash pl bd = Some r /\
    Server.shock_5_value cv = cv * 0.95 /\
    Server.shock_10_value cv = cv * 0.90 /\
    Server.shock_value (Server.shock_5 r) = round (cv * 0.95) 2 /\
    Server.shock_value (Server.shock_10 r) = round (cv * 0.90) 2 /\
    List.length (Server.historical_data r) = 12%nat /\
    (forall hash',
        (forall i d, In i Server.range_12_0 ->
                     Server.minus_days bd (i * 30) = Some d ->
                     hash' (Server.str_of_datetime d)
                     = hash (Server.str_of_datetime d)) ->
        Server.get_hedge_analysis hash' pl bd = Some r).
Proof.
  intros Hord cv.
  destruct (history_loop_total hash cv bd Server.range_12_0) as [l E].
  { intros i Hi. simpl in Hi.
    repeat (destruct Hi as [<- | Hi]; [lia|]). destruct Hi. }
  unfold Server.get_hedge_analysis. fold cv. rewrite E.
  eexists. split; [reflexivity|].
  cbn [Server.shock_5 Server.shock_10 Server.shock_value
       Server.historical_data].
  repeat split.
  - exact (history_loop_length _ _ _ _ _ E).
  - intros hash' H.
    rewrite (history_loop_ext hash' hash cv bd _ H), E. reflexivity.
Qed.

(** C9.  The endpoint is not deterministic in the sense of the claim: for
    the same current value (the fixed 234170.23) and the same base date, two
    interpreter processes, whose string hashes are salted differently,
    produce different histories (the first month comes out as 224335.08
    under one salt and as 234872.74 under the other), while the shock
    scenarios, which do not read the hash, agree. *)
Theorem hedge_history_depends_on_hash_salt :
  let run1 := Server.get_hedge_analysis (Samples.salted_hash 1) None
                Samples.a_base_date in
  let run2 := Server.get_hedge_analysis (Samples.salted_hash 2) None
                Samples.a_base_date in
  option_map (fun r => hd 0 (map Server.normal_value (Server.historical_data r)))
             run1 = Some 224335.08 /\
  option_map (fun r => hd 0 (map Server.normal_value (Server.historical_data r)))
             run2 = Some 234872.74 /\
  option_map (fun r => map Server.normal_value (Server.historical_data r)) run1
  <> option_map (fun r => map Server.normal_value (Server.historical_data r))
                run2 /\
  option_map (fun r => Server.shock_5 r) run1
  = option_map (fun r => Server.shock_5 r) run2.
Proof.
  vm_compute. repeat split; discriminate.
Qed.

End HedgeProps.

(* ================================================================== *)
(** * More on the price lookups and the aggregator                     *)
(* ================================================================== *)

Module PLMore.
Import Py PyFacts PL PLProps Notions.

(** X1.  When the equities service answers with a status other than 200,
    [get_upstox_stock_price] returns the token-expired marker for 401 and
    nothing for every other status, whatever the body, after one request. *)
Theorem upstox_non_200 (w : world) (symbol : string) (k : nat)
    (status_code : Z) (body : option value) :
  net w k (UpstoxLtp (map_to_upstox_symbol symbol))
  = Response status_code body ->
  status_code <> 200%Z ->
  get_upstox_stock_price w symbol k
  = (if (status_code =? 401)%Z then TOKEN_EXPIRED else VNone, S k).
Proof.
  intros Hr Hs. unfold get_upstox_stock_price, bind, send, ret. rewrite Hr.
  unfold upstox_price_of_reply.
  apply Z.eqb_neq in Hs. rewrite Hs. reflexivity.
Qed.

Lemma upstox_non_200_witness :
  get_upstox_stock_price Samples.world_500 "OIL" 0%nat = (VNone, 1%nat).
Proof.
  apply (upstox_non_200 Samples.world_500 "OIL" 0%nat 500%Z None);
    [reflexivity | discriminate].
Defined.

Lemma scan_first_priced (pre post : list (string * value)) (key : string)
    (kv : list (string * value)) (price : value) :
  Forall skipped pre ->
  dict_get "last_price" kv = Some price ->
  scan_last_price (pre ++ (key, VDict kv) :: post) = price.
Proof.
  intros Hpre Hkv. induction Hpre as [|[k0 v0] pre H0 Hpre IH]; simpl.
  - destruct kv as [|e kv]; [discriminate|]. cbn [truthy].
    rewrite Hkv. reflexivity.
  - destruct H0 as [F | [kv0 [E N]]]; simpl in *.
    + rewrite F. exact IH.
    + subst v0. destruct (truthy (VDict kv0)); [|exact IH].
      rewrite N. exact IH.
Qed.

(** X2.  On a 200 response whose body says [success], the price returned is
    the ['last_price'] of the first entry of [data] that has one, under
    whatever key that entry is filed: entries before it that are empty or
    have no price are passed over, and the keys are never compared with the
    requested instrument key. *)
Theorem upstox_first_priced_entry (w : world) (symbol : string) (k : nat)
    (data pre post : list (string * value)) (key : string)
    (kv : list (string * value)) (price : value) :
  net w k (UpstoxLtp (map_to_upstox_symbol symbol))
  = Response 200 (Some (VDict data)) ->
  dict_get "status" data = Some (VStr "success") ->
  dict_get "data" data = Some (VDict (pre ++ (key, VDict kv) :: post)) ->
  Forall skipped pre ->
  dict_get "last_price" kv = Some price ->
  get_upstox_stock_price w symbol k = (price, S k).
Proof.
  intros Hr Hs Hd Hpre Hkv.
  unfold get_upstox_stock_price, bind, send, ret. rewrite Hr.
  unfold upstox_price_of_reply. simpl. rewrite Hs, Hd. simpl.
  now rewrite (scan_first_priced pre post key kv price Hpre Hkv).
Qed.

Lemma upstox_first_priced_entry_witness :
  get_upstox_stock_price Samples.world_two_entries "OIL" 0%nat
  = (VNum 42, 1%nat).
Proof.
  apply (upstox_first_priced_entry Samples.world_two_entries "OIL" 0%nat
           [("status", VStr "success");
            ("data", VDict [("NSE_EQ:XYZ", VDict [("volume", VNum 7)]);
                            ("NSE_EQ:ABC", VDict [("last_price", VNum 42)])])]
           [("NSE_EQ:XYZ", VDict [("volume", VNum 7)])] []
           "NSE_EQ:ABC" [("last_price", VNum 42)] (VNum 42));
    try reflexivity.
  constructor; [|constructor].
  right. exists [("volume", VNum 7)]. split; reflexivity.
Defined.

Lemma mf_nav_shape (w : world) (scheme_name : string) (k : nat) :
  let out := get_mf_nav w scheme_name k in
  (fst out = VNone \/ exists q, fst out = VNum q) /\
  (snd out = S k \/ snd out = S (S k)).
Proof.
  cbv zeta. unfold get_mf_nav, bind, send, ret.
  destruct (net w k (MfSearch (replace_spaces scheme_name))) as [code json|];
    [|simpl; auto].
  destruct (code =? 200)%Z; [|simpl; auto].
  destruct json as [results|]; [|simpl; auto].
  destruct (truthy results); [|simpl; auto].
  destruct (first_scheme_code results) as [scheme_code|]; [|simpl; auto].
  simpl. split; [|auto].
  unfold nav_of_reply.
  destruct (net w (S k) (MfNav scheme_code)) as [code2 json2|]; [|auto].
  destruct json2 as [[| | | | |nav_data]|]; auto.
  destruct (code2 =? 200)%Z; auto.
  destruct (dict_get "meta" nav_data) as [[| | | | |meta]|]; auto.
  destruct (dict_get "fund_house" meta) as [fh|]; auto.
  destruct (truthy fh); auto.
  destruct (dict_get "data" nav_data)
    as [[| | | | [|[| | | | |entry] ?] |]|]; auto.
  destruct (dict_get "nav" entry) as [nav|]; auto.
  destruct (float_of w nav); simpl; eauto.
Qed.

(** X3.  [get_mf_nav] returns nothing or a number, never a string such as
    the token-expired marker, and it sends one request (the search) or two
    (the search and the NAV lookup), whatever the service answers. *)
Theorem mf_nav_result (w : world) (scheme_name : string) (k : nat) :
  let out := get_mf_nav w scheme_name k in
  (fst out = VNone \/ exists q, fst out = VNum q) /\
  fst out <> TOKEN_EXPIRED /\
  (snd out = S k \/ snd out = S (S k)).
Proof.
  cbv zeta. destruct (mf_nav_shape w scheme_name k) as [V K].
  repeat split; try assumption.
  destruct V as [-> | [q ->]]; discriminate.
Qed.

(** The result of the calculation, field by field. *)
Lemma result_fields (w : world) (hs : list holding) (k : nat) :
  let r := fst (calculate_portfolio_pl w hs k) in
  let lines := map (fun hp => line_of (fst hp) (snd hp))
                   (combine hs (fst (resolved_prices w hs k))) in
  details r = lines /\
  total_invested r = sum (map invested hs) /\
  total_current_value r = sum (map pl_current_value lines) /\
  total_pl r = total_current_value r - total_invested r /\
  total_pl_percentage r =
    (if Qltb 0 (total_invested r)
     then (total_pl r / total_invested r) * 100 else 0) /\
  snd (calculate_portfolio_pl w hs k) = snd (resolved_prices w hs k).
Proof.
  unfold calculate_portfolio_pl, bind. rewrite pl_loop_unfold.
  cbv zeta. cbn [fst snd ret details total_pl total_invested
                 total_current_value total_pl_percentage app].
  repeat split.
Qed.





Lemma fallback_line_eq (h : holding) (price : value) :
  live_price price = None -> line_of h price = line_of h VNone.
Proof. intro E. unfold line_of. rewrite E. reflexivity. Qed.

Lemma offline_resolve (w : world) (h : holding) (k : nat) :
  offline w -> live_price (fst (resolve_price w h k)) = None.
Proof.
  intro O. unfold resolve_price.
  destruct (String.eqb (asset_class h) "Equity").
  - unfold get_upstox_stock_price, bind, send, ret. simpl.
    specialize (O k (UpstoxLtp (map_to_upstox_symbol (instrument h)))).
    destruct (net w k _) as [code body|]; [|reflexivity].
    unfold upstox_price_of_reply. apply Z.eqb_neq in O. rewrite O.
    destruct (code =? 401)%Z; reflexivity.
  - destruct (contains "fund" (lower (instrument h))
              || contains "mutual" (lower (instrument h))); [|reflexivity].
    unfold get_mf_nav, bind, send, ret.
    specialize (O k (MfSearch (replace_spaces (instrument h)))).
    destruct (net w k _) as [code body|]; [|reflexivity].
    apply Z.eqb_neq in O. rewrite O. reflexivity.
Qed.

Lemma offline_lines (w : world) (hs : list holding) :
  offline w ->
  forall k,
    map (fun hp => line_of (fst hp) (snd hp))
        (combine hs (fst (resolved_prices w hs k)))
    = map (fun h => line_of h VNone) hs.
Proof.
  intro O. induction hs as [|h hs IH]; intro k; [reflexivity|].
  rewrite resolved_prices_cons.
  pose proof (offline_resolve w h k O) as E.
  destruct (resolve_price w h k) as [price k1]. simpl in E.
  specialize (IH k1).
  destruct (resolved_prices w hs k1) as [prices k2]. simpl in *.
  now rewrite IH, (fallback_line_eq h price E).
Qed.

(** X6.  When no request is answered with status 200 (services down, token
    refused, network unreachable), the calculation still returns a result:
    every line is the fallback line of its holding, and the totals are those
    of the loaded table, the sum of its current values against the sum of
    its invested amounts. *)
Theorem offline_totals (w : world) (hs : list holding) (k : nat) :
  offline w ->
  let r := fst (calculate_portfolio_pl w hs k) in
  details r = map (fun h => line_of h VNone) hs /\
  Forall (fun line => current_price line = API_FAILED) (details r) /\
  total_current_value r == sum (map current_value hs) /\
  total_invested r == sum (map invested hs) /\
  total_pl r == sum (map current_value hs) - sum (map invested hs).
Proof.
  intro O. cbv zeta.
  destruct (result_fields w hs k) as [D [I [C [P _]]]].
  rewrite (offline_lines w hs O k) in D, C.
  rewrite P, I, C, D, !map_map. cbn [line_of live_price truthy pl_current_value].
  repeat split; try reflexivity.
  apply Forall_forall. intros line Hin. apply in_map_iff in Hin.
  destruct Hin as [h [<- _]]. reflexivity.
Qed.

Lemma offline_totals_witness :
  let r := fst (calculate_portfolio_pl Samples.world_500
                  [Samples.oil; Samples.gold] 0%nat) in
  total_current_value r == 2100 /\ total_invested r == 1950 /\
  total_pl r == 150.
Proof.
  destruct (offline_totals Samples.world_500 [Samples.oil; Samples.gold] 0%nat)
    as [_ [_ [C [I P]]]].
  - intros k r. simpl. discriminate.
  - cbv zeta. rewrite C, I, P. repeat split; reflexivity.
Defined.




(** X9.  The price recorded on a line tells how the line was valued: every
    line belongs to a holding of the list and either carries the fallback
    marker and the holding's loaded current value, or carries a strictly
    positive number and the holding's quantity times that number. *)
Theorem line_price_marker (w : world) (hs : list holding) (k : nat)
    (line : pl_line) :
  In line (details (fst (calculate_portfolio_pl w hs k))) ->
  exists h,
    In h hs /\ pl_instrument line = instrument h /\
    ((current_price line = API_FAILED /\
      pl_current_value line = current_value h) \/
     (exists p, as_number (current_price line) = Some p /\ 0 < p /\
                pl_current_value line = quantity h * p)).
Proof.
  intro Hin.
  destruct (line_in_details w hs k line Hin) as [h [price [Hh ->]]].
  exists h. split; [exact Hh|].
  unfold line_of. destruct (live_price price) as [p|] eqn:E; simpl.
  - split; [reflexivity|]. right. exists p.
    unfold live_price in E.
    destruct (truthy price); [|discriminate].
    destruct (as_number price) as [q|]; [|discriminate].
    destruct (Qltb 0 q) eqn:L; [|discriminate].
    injection E as <-. apply Qltb_lt in L. now repeat split.
  - split; [reflexivity|]. left. now split.
Qed.

Lemma line_price_marker_witness :
  exists h,
    In h [Samples.oil] /\
    pl_instrument (line_of Samples.oil (VNum 105.5)) = instrument h /\
    ((current_price (line_of Samples.oil (VNum 105.5)) = API_FAILED /\
      pl_current_value (line_of Samples.oil (VNum 105.5)) = current_value h) \/
     (exists p,
         as_number (current_price (line_of Samples.oil (VNum 105.5))) = Some p /\
         0 < p /\
         pl_current_value (line_of Samples.oil (VNum 105.5)) = quantity h * p)).
Proof.
  apply (line_price_marker Samples.world_live [Samples.oil] 0%nat
           (line_of Samples.oil (VNum 105.5))).
  left. reflexivity.
Defined.

Lemma is_str_eq (s : string) (v : value) : is_str s v = true <-> v = VStr s.
Proof.
  destruct v; simpl; try (split; [discriminate | intro H; discriminate H]).
  rewrite String.eqb_eq. split; [now intros -> | intro H; now inversion H].
Qed.

Lemma scan_sound (items : list (string * value)) :
  scan_last_price items <> VNone ->
  exists key kv, In (key, VDict kv) items /\
                 dict_get "last_price" kv = Some (scan_last_price items).
Proof.
  induction items as [|[key v] items IH]; intro H; [now elim H|].
  cbn [scan_last_price] in H |- *.
  assert (R : scan_last_price items <> VNone ->
              exists key0 kv, In (key0, VDict kv) ((key, v) :: items) /\
                dict_get "last_price" kv = Some (scan_last_price items)).
  { intro N. destruct (IH N) as [k0 [kv [A B]]]. exists k0, kv.
    split; [now right | exact B]. }
  destruct (truthy v); [|now apply R].
  destruct v as [| | | s | l | kv]; try now elim H.
  - destruct (contains "last_price" s); [now elim H | now apply R].
  - destruct (existsb (is_str "last_price") l); [now elim H | now apply R].
  - destruct (dict_get "last_price" kv) as [price|] eqn:E; [|now apply R].
    exists key, kv. split; [now left | exact E].
Qed.

(** X29.  A price that [get_upstox_stock_price] returns is never made up:
    anything it returns besides [None] is either the token-expired marker
    of a 401 response, or the ['last_price'] field of an entry of the
    [data] dictionary of a 200 response whose status is [success]. *)
Theorem upstox_price_sound (w : world) (symbol : string) (k : nat)
    (price : value) :
  fst (get_upstox_stock_price w symbol k) = price ->
  price <> VNone ->
  (exists body,
      net w k (UpstoxLtp (map_to_upstox_symbol symbol)) = Response 401 body /\
      price = TOKEN_EXPIRED) \/
  (exists data items key kv,
      net w k (UpstoxLtp (map_to_upstox_symbol symbol))
      = Response 200 (Some (VDict data)) /\
      dict_get "status" data = Some (VStr "success") /\
      dict_get "data" data = Some (VDict items) /\
      In (key, VDict kv) items /\
      dict_get "last_price" kv = Some price).
Proof.
  unfold get_upstox_stock_price, bind, send, ret. cbn [fst].
  destruct (net w k (UpstoxLtp (map_to_upstox_symbol symbol)))
    as [code body|]; [|intros <- N; now elim N].
  unfold upstox_price_of_reply.
  destruct (code =? 200)%Z eqn:C.
  - apply Z.eqb_eq in C. subst code.
    destruct body as [[| | | | |data]|]; try (intros <- N; now elim N).
    destruct (dict_get "status" data) as [st|] eqn:S;
      [|intros <- N; now elim N].
    destruct (dict_get "data" data) as [d|] eqn:D; [|intros <- N; now elim N].
    destruct (is_str "success" st) eqn:I; [|intros <- N; now elim N].
    destruct d as [| | | | |items]; try (intros <- N; now elim N).
    intros <- N. right.
    destruct (scan_sound items N) as [key [kv [A B]]].
    exists data, items, key, kv. repeat split; try assumption.
    apply is_str_eq in I. now subst.
  - destruct (code =? 401)%Z eqn:C'; [|intros <- N; now elim N].
    apply Z.eqb_eq in C'. subst code. intros <- _. left. now exists body.
Qed.

Lemma upstox_price_sound_witness :
  (exists body,
      net Samples.world_live 0%nat (UpstoxLtp (map_to_upstox_symbol "OIL"))
      = Response 401 body /\ VNum 105.5 = TOKEN_EXPIRED) \/
  (exists data items key kv,
      net Samples.world_live 0%nat (UpstoxLtp (map_to_upstox_symbol "OIL"))
      = Response 200 (Some (VDict data)) /\
      dict_get "status" data = Some (VStr "success") /\
      dict_get "data" data = Some (VDict items) /\
      In (key, VDict kv) items /\
      dict_get "last_price" kv = Some (VNum 105.5)).
Proof.
  apply (upstox_price_sound Samples.world_live "OIL" 0%nat (VNum 105.5));
    [reflexivity | discriminate].
Defined.

End PLMore.

(* ================================================================== *)
(** * More on rounding                                                 *)
(* ================================================================== *)

Module RoundFacts.
Import Py PyFacts.

Lemma round_half_even_bounds (x : Q) :
  (Qfloor x <= round_half_even x <= Qfloor x + 1)%Z.
Proof.
  unfold round_half_even.
  destruct (Qltb _ _); [lia|]. destruct (Qltb _ _); [lia|].
  destruct (Z.even _); lia.
Qed.

Lemma round_half_even_mono (x y : Q) :
  x <= y -> (round_half_even x <= round_half_even y)%Z.
Proof.
  intro H. pose proof (Qfloor_resp_le x y H) as F.
  pose proof (round_half_even_bounds x) as Bx.
  pose proof (round_half_even_bounds y) as By.
  destruct (Z.eq_dec (Qfloor x) (Qfloor y)) as [E|N]; [|lia].
  unfold round_half_even in *. rewrite <- E in *.
  set (f := Qfloor x) in *.
  assert (D : x - inject_Z f <= y - inject_Z f).
  { apply Qplus_le_l with (z := inject_Z f). ring_simplify. exact H. }
  destruct (Qltb (x - inject_Z f) (1 # 2)) eqn:A; [lia|].
  apply Qltb_ge in A.
  assert (A' : Qltb (y - inject_Z f) (1 # 2) = false).
  { apply Qltb_ge. now apply Qle_trans with (x - inject_Z f). }
  rewrite A'.
  destruct (Qltb (1 # 2) (x - inject_Z f)) eqn:B.
  - apply Qltb_lt in B.
    assert (B' : Qltb (1 # 2) (y - inject_Z f) = true).
    { apply Qltb_lt. now apply Qlt_le_trans with (x - inject_Z f). }
    rewrite B'. lia.
  - destruct (Qltb (1 # 2) (y - inject_Z f)); [destruct (Z.even f); lia | lia].
Qed.

Lemma round_mono (x y : Q) (n : nat) : x <= y -> round x n <= round y n.
Proof.
  intro H. unfold round.
  set (p := (10 ^ Z.of_nat n)%Z).
  assert (P : (0 < p)%Z) by (apply Z.pow_pos_nonneg; lia).
  assert (PQ : inject_Z 0 < inject_Z p) by (rewrite <- Zlt_Qlt; exact P).
  apply Qmult_le_compat_r.
  - rewrite <- Zle_Qle. apply round_half_even_mono.
    apply Qmult_le_compat_r; [exact H | now apply Qlt_le_weak].
  - apply Qlt_le_weak, Qinv_lt_0_compat, PQ.
Qed.

Lemma round_exact (x : Q) (n : nat) (z : Z) :
  x * inject_Z (10 ^ Z.of_nat n) == inject_Z z -> round x n == x.
Proof.
  intro E. unfold round.
  set (p := (10 ^ Z.of_nat n)%Z) in *.
  assert (P : (0 < p)%Z) by (apply Z.pow_pos_nonneg; lia).
  assert (PQ : ~ inject_Z p == 0).
  { intro Z0. rewrite Zlt_Qlt, Z0 in P. discriminate P. }
  rewrite (SentimentProps.round_half_even_Z _ z E), <- E.
  now field.
Qed.

End RoundFacts.

(* ================================================================== *)
(** * More on the sentiment scorers                                    *)
(* ================================================================== *)

Module SentimentMore.
Import Py PyFacts SentimentProps RoundFacts.

Lemma count_words_nonneg (words : list string) (t : string) :
  0 <= Server.count_words words t.
Proof.
  unfold Server.count_words. rewrite sum_constant, Qmult_1_r.
  change 0 with (inject_Z 0). rewrite <- Zle_Qle. lia.
Qed.

Lemma nonneg_plus (a b : Q) : 0 <= a -> 0 <= b -> 0 <= a + b.
Proof.
  intros A B. setoid_replace 0 with (0 + 0) by reflexivity.
  now apply Qplus_le_compat.
Qed.

Lemma min_bounds (a b lo : Q) : lo <= a -> lo <= b -> lo <= min a b <= b.
Proof.
  intros A B. unfold min. destruct (Qltb b a) eqn:E.
  - split; [exact B | apply Qle_refl].
  - apply Qltb_ge in E. now split.
Qed.

(** The raw confidence behind an analysis, with its bounds. *)
Lemma analysis_raw (text : string) :
  let a := Server.analyze_with_finbert_simulation text in
  let s := Server.scores_of a in
  exists raw : Q,
    on_grid 1000 raw /\
    Server.confidence a = round (min (max raw 0.6) 0.95) 4 /\
    ((Server.sentiment a = "positive" /\ 0.75 <= raw <= 0.95 /\
      Server.score_positive s = round raw 4 /\
      Server.score_negative s = round ((1 - raw) * 0.3) 4 /\
      Server.score_neutral s = round ((1 - raw) * 0.7) 4) \/
     (Server.sentiment a = "negative" /\ 0.75 <= raw <= 0.95 /\
      Server.score_positive s = round ((1 - raw) * 0.3) 4 /\
      Server.score_negative s = round raw 4 /\
      Server.score_neutral s = round ((1 - raw) * 0.7) 4) \/
     (Server.sentiment a = "neutral" /\ 0.65 <= raw /\
      Server.score_positive s = round ((1 - raw) * 0.5) 4 /\
      Server.score_negative s = round ((1 - raw) * 0.5) 4 /\
      Server.score_neutral s = round raw 4)).
Proof.
  unfold Server.analyze_with_finbert_simulation.
  cbv zeta.
  set (cb := sum (map (fun _ => 0.05) _)).
  set (ns := _ * 0.3 + _ * 0.2
             + Server.count_words Server.moderate_negative _ * 0.1).
  set (ps0 := _ * 0.3 + _ * 0.2 + _ * 0.1 + cb).
  set (ps := match Server.findall_percentages text 0 with
             | [] => _ | _ :: _ => _ end).
  assert (Gcb : on_grid 100 cb).
  { subst cb. eapply grid_eq; [symmetry; apply sum_constant|].
    exact (grid_scale 1 100 5 _ (grid_inject _)). }
  assert (Ncb : 0 <= cb).
  { subst cb. rewrite sum_constant.
    apply Qmult_le_0_compat; [|discriminate].
    change 0 with (inject_Z 0). rewrite <- Zle_Qle. lia. }
  assert (T : forall (ws : list string) (tx : string) (w : Z),
             (0 <= w)%Z -> 0 <= Server.count_words ws tx * (w # 10)).
  { intros ws tx w Hw. apply Qmult_le_0_compat.
    - apply count_words_nonneg.
    - unfold Qle. simpl. lia. }
  assert (Nns : 0 <= ns).
  { subst ns. apply nonneg_plus; [apply nonneg_plus|]; apply T; lia. }
  assert (Nps0 : 0 <= ps0).
  { subst ps0.
    apply nonneg_plus; [apply nonneg_plus; [apply nonneg_plus|]|exact Ncb];
      apply T; lia. }
  assert (Gns : on_grid 100 ns).
  { subst ns. repeat apply grid_plus; apply grid_tenths, count_words_grid. }
  assert (Gps0 : on_grid 100 ps0).
  { subst ps0. repeat apply grid_plus; try apply grid_tenths, count_words_grid.
    exact Gcb. }
  assert (Gps : on_grid 100 ps /\ 0 <= ps).
  { subst ps. destruct (Server.findall_percentages text 0); [now split|].
    destruct (Qltb 10 _); [|now split]. split.
    - apply grid_plus; [exact Gps0|].
      exact (grid_refine 10 10 _ (grid_const 10 2)).
    - apply nonneg_plus; [exact Nps0 | discriminate]. }
  destruct Gps as [Gps Nps].
  assert (Graw : forall x, on_grid 100 x -> 0 <= x ->
                           on_grid 1000 (0.75 + min (x * 0.1) 0.2) /\
                           0.75 <= 0.75 + min (x * 0.1) 0.2 <= 0.95).
  { intros x Gx Nx. split.
    - apply grid_plus.
      + exact (grid_refine 100 10 _ (grid_const 100 75)).
      + apply grid_min.
        * exact (grid_scale 100 10 1 _ Gx).
        * exact (grid_refine 10 100 _ (grid_const 10 2)).
    - destruct (min_bounds (x * 0.1) 0.2 0) as [L U].
      + apply Qmult_le_0_compat; [exact Nx | discriminate].
      + discriminate.
      + split.
        * rewrite <- (Qplus_0_r 0.75) at 1. now apply Qplus_le_r.
        * setoid_replace 0.95 with (0.75 + 0.2) by reflexivity.
          now apply Qplus_le_r. }
  destruct (Qltb ns ps); [|destruct (Qltb ps ns)];
    cbn [Server.scores_of Server.score_positive Server.score_negative
         Server.score_neutral Server.confidence Server.sentiment].
  - exists (0.75 + min (ps * 0.1) 0.2).
    destruct (Graw ps Gps Nps) as [G B]. split; [exact G|].
    split; [reflexivity|]. left. repeat split; apply B.
  - exists (0.75 + min (ns * 0.1) 0.2).
    destruct (Graw ns Gns Nns) as [G B]. split; [exact G|].
    split; [reflexivity|]. right; left. repeat split; apply B.
  - exists (0.65 + cb). split.
    + apply (grid_refine 100 10), grid_plus; [apply grid_const|exact Gcb].
    + split; [reflexivity|]. right; right. repeat split.
      rewrite <- (Qplus_0_r 0.65) at 1. now apply Qplus_le_r.
Qed.

Lemma winner_round (raw : Q) : on_grid 1000 raw -> round raw 4 == raw.
Proof. intro G. exact (round_on_grid _ (grid_refine 1000 10 _ G)). Qed.

Lemma loser_round (raw : Q) (w : Z) :
  on_grid 1000 raw -> round ((1 - raw) * (w # 10)) 4 == (1 - raw) * (w # 10).
Proof. intro G. exact (round_on_grid _ (loser_grid raw w G)). Qed.

Lemma clamp_high (raw : Q) :
  0.6 <= raw -> min (max raw 0.6) 0.95 == min raw 0.95.
Proof.
  intro H. unfold max. apply Qltb_ge in H. rewrite H. reflexivity.
Qed.

Lemma min_eq_l (a b : Q) : a <= b -> min a b = a.
Proof. intro H. unfold min. apply Qltb_ge in H. now rewrite H. Qed.

(** X10.  The label is the class with the highest probability: the
    probability of the returned label is strictly above the other two, and
    the confidence is that probability, capped at 0.95 (the cap only bites
    for the neutral label); it always lies between 0.6 and 0.95. *)
Theorem label_has_highest_probability (text : string) :
  let a := Server.analyze_with_finbert_simulation text in
  let s := Server.scores_of a in
  ((Server.sentiment a = "positive" /\
    Server.score_negative s < Server.score_positive s /\
    Server.score_neutral s < Server.score_positive s /\
    Server.confidence a == Server.score_positive s) \/
   (Server.sentiment a = "negative" /\
    Server.score_positive s < Server.score_negative s /\
    Server.score_neutral s < Server.score_negative s /\
    Server.confidence a == Server.score_negative s) \/
   (Server.sentiment a = "neutral" /\
    Server.score_positive s < Server.score_neutral s /\
    Server.score_negative s < Server.score_neutral s /\
    Server.confidence a == min (Server.score_neutral s) 0.95)) /\
  0.6 <= Server.confidence a <= 0.95.
Proof.
  cbv zeta. split; [|apply confidence_in_range].
  destruct (analysis_raw text) as [raw [G [C H]]]. cbv zeta in *.
  pose proof (winner_round raw G) as R.
  pose proof (loser_round raw 3 G) as R3.
  pose proof (loser_round raw 7 G) as R7.
  pose proof (loser_round raw 5 G) as R5.
  rewrite C.
  destruct H as [[L [B [-> [-> ->]]]]
               | [[L [B [-> [-> ->]]]] | [L [B [-> [-> ->]]]]]].
  - left. split; [exact L|]. rewrite R, R3, R7.
    rewrite (min_eq_l (max raw 0.6) 0.95).
    + unfold max. assert (E : Qltb raw 0.6 = false) by (apply Qltb_ge; lra).
      rewrite E, R. repeat split; lra.
    + unfold max. destruct (Qltb raw 0.6); lra.
  - right; left. split; [exact L|]. rewrite R, R3, R7.
    rewrite (min_eq_l (max raw 0.6) 0.95).
    + unfold max. assert (E : Qltb raw 0.6 = false) by (apply Qltb_ge; lra).
      rewrite E, R. repeat split; lra.
    + unfold max. destruct (Qltb raw 0.6); lra.
  - right; right. split; [exact L|]. rewrite R5.
    repeat split; try (rewrite R; lra).
    unfold max. assert (E : Qltb raw 0.6 = false) by (apply Qltb_ge; lra).
    rewrite E. unfold min.
    destruct (Qltb 0.95 raw) eqn:A; destruct (Qltb 0.95 (round raw 4)) eqn:A'.
    + reflexivity.
    + apply Qltb_lt in A. apply Qltb_ge in A'. rewrite R in A'. lra.
    + apply Qltb_ge in A. apply Qltb_lt in A'. rewrite R in A'. lra.
    + reflexivity.
Qed.

Ltac each_ascii c :=
  destruct c as [[] [] [] [] [] [] [] []].

Lemma lower_ascii_idem (c : ascii) : lower_ascii (lower_ascii c) = lower_ascii c.
Proof. each_ascii c; reflexivity. Qed.

Lemma lower_idem (s : string) : lower (lower s) = lower s.
Proof.
  induction s as [|c s IH]; simpl; [reflexivity|].
  now rewrite lower_ascii_idem, IH.
Qed.

Lemma lower_ascii_digit (c : ascii) :
  Server.is_digit (lower_ascii c) = Server.is_digit c /\
  (Server.is_digit c = true -> lower_ascii c = c).
Proof. each_ascii c; split; (reflexivity || discriminate). Qed.

Lemma lower_ascii_space (c : ascii) :
  Server.is_space (lower_ascii c) = Server.is_space c.
Proof. each_ascii c; reflexivity. Qed.

Lemma lower_ascii_eqb (c : ascii) :
  Ascii.eqb (lower_ascii c) "%" = Ascii.eqb c "%" /\
  Ascii.eqb (lower_ascii c) "." = Ascii.eqb c ".".
Proof. each_ascii c; split; reflexivity. Qed.

Lemma take_digits_lower (s : string) :
  Server.take_digits (lower s)
  = (fst (Server.take_digits s), lower (snd (Server.take_digits s))).
Proof.
  induction s as [|c s IH]; [reflexivity|].
  cbn [lower Server.take_digits].
  destruct (lower_ascii_digit c) as [D E]. rewrite D.
  destruct (Server.is_digit c) eqn:Dc.
  - rewrite IH, (E eq_refl). now destruct (Server.take_digits s).
  - reflexivity.
Qed.

Lemma spaces_then_percent_lower (s : string) :
  Server.spaces_then_percent (lower s) = Server.spaces_then_percent s.
Proof.
  induction s as [|c s IH]; [reflexivity|].
  cbn [lower Server.spaces_then_percent].
  destruct (lower_ascii_eqb c) as [-> _]. rewrite lower_ascii_space, IH.
  reflexivity.
Qed.

(** The reading of the optional fraction, with the dot tested by [eqb]. *)
Lemma match_percentage_eq (s : string) :
  Server.match_percentage s =
  let (d1, r1) := Server.take_digits s in
  if String.eqb d1 "" then None
  else
    let plain :=
      option_map (fun n => (d1, (String.length d1 + n)%nat))
                 (Server.spaces_then_percent r1) in
    match r1 with
    | String c r2 =>
        if Ascii.eqb c "." then
          let (d2, r3) := Server.take_digits r2 in
          if String.eqb d2 "" then plain
          else
            match Server.spaces_then_percent r3 with
            | Some n =>
                Some (d1 ++ "." ++ d2,
                      (String.length d1 + 1 + String.length d2 + n)%nat)
            | None => plain
            end
        else plain
    | EmptyString => plain
    end.
Proof.
  unfold Server.match_percentage.
  destruct (Server.take_digits s) as [d1 r1].
  destruct (String.eqb d1 ""); [reflexivity|].
  destruct r1 as [|c r2]; [reflexivity|].
  each_ascii c; reflexivity.
Qed.

Lemma match_percentage_lower (s : string) :
  Server.match_percentage (lower s) = Server.match_percentage s.
Proof.
  rewrite !match_percentage_eq, take_digits_lower.
  destruct (Server.take_digits s) as [d1 r1]. cbn [fst snd].
  destruct (String.eqb d1 ""); [reflexivity|].
  rewrite spaces_then_percent_lower.
  destruct r1 as [|c r2]; [reflexivity|]. cbn [lower].
  destruct (lower_ascii_eqb c) as [_ ->].
  destruct (Ascii.eqb c "."); [|reflexivity].
  rewrite take_digits_lower.
  destruct (Server.take_digits r2) as [d2 r3]. cbn [fst snd].
  now rewrite spaces_then_percent_lower.
Qed.

Lemma findall_percentages_lower (s : string) :
  forall skip,
    Server.findall_percentages (lower s) skip
    = Server.findall_percentages s skip.
Proof.
  induction s as [|c s IH]; intro skip; [reflexivity|].
  change (lower (String c s)) with (String (lower_ascii c) (lower s)).
  cbn [Server.findall_percentages].
  destruct skip as [|n]; [|apply IH].
  change (String (lower_ascii c) (lower s)) with (lower (String c s)).
  rewrite match_percentage_lower.
  destruct (Server.match_percentage (String c s)) as [[g len]|];
    now rewrite IH.
Qed.

(** X12.  The scorer ignores letter case: a text and its lower-case form
    get the same label, confidence and probabilities (the keywords are
    looked up in the lower-case text, and the percentages are made of
    characters that lowering leaves alone). *)
Theorem scorer_ignores_case (text : string) :
  Server.analyze_with_finbert_simulation (lower text)
  = Server.analyze_with_finbert_simulation text.
Proof.
  unfold Server.analyze_with_finbert_simulation.
  rewrite lower_idem, findall_percentages_lower. reflexivity.
Qed.



Lemma contains_tail (w : string) (c : ascii) (s : string) :
  contains w s = true -> contains w (String c s) = true.
Proof. intro H. cbn [contains]. rewrite H. apply orb_true_r. Qed.

Lemma spaces_then_percent_sign (s : string) (n : nat) :
  Server.spaces_then_percent s = Some n -> contains "%" s = true.
Proof.
  revert n. induction s as [|c s IH]; intros n H; [discriminate|].
  cbn [Server.spaces_then_percent] in H.
  destruct (Ascii.eqb c "%") eqn:E.
  - apply Ascii.eqb_eq in E. subst c. reflexivity.
  - destruct (Server.is_space c); [|discriminate].
    destruct (Server.spaces_then_percent s) as [m|]; [|discriminate].
    apply contains_tail. now apply (IH m).
Qed.

Lemma take_digits_suffix (w s : string) :
  contains w (snd (Server.take_digits s)) = true -> contains w s = true.
Proof.
  induction s as [|c s IH]; [trivial|].
  cbn [Server.take_digits]. destruct (Server.is_digit c); [|trivial].
  destruct (Server.take_digits s) as [d r]. cbn [snd] in *.
  intro H. apply contains_tail. now apply IH.
Qed.

Lemma match_percentage_sign (s : string) (m : string * nat) :
  Server.match_percentage s = Some m -> contains "%" s = true.
Proof.
  rewrite match_percentage_eq.
  pose proof (take_digits_suffix "%" s) as T.
  destruct (Server.take_digits s) as [d1 r1]. cbn [snd] in T.
  destruct (String.eqb d1 ""); [discriminate|].
  assert (P : forall x, option_map (fun n => (d1, (String.length d1 + n)%nat))
                          (Server.spaces_then_percent r1) = Some x ->
                        contains "%" s = true).
  { intros x H. destruct (Server.spaces_then_percent r1) as [n|] eqn:E;
      [|discriminate]. apply T. now apply (spaces_then_percent_sign r1 n). }
  destruct r1 as [|c r2]; [apply P|].
  destruct (Ascii.eqb c "."); [|apply P].
  pose proof (take_digits_suffix "%" r2) as T2.
  destruct (Server.take_digits r2) as [d2 r3]. cbn [snd] in T2.
  destruct (String.eqb d2 ""); [apply P|].
  destruct (Server.spaces_then_percent r3) as [n|] eqn:E; [|apply P].
  intros _. apply T, contains_tail, T2.
  now apply (spaces_then_percent_sign r3 n).
Qed.

(** X13.  A text without a percent sign yields no percentage, whatever
    digits it contains, so the percentage bonus of the scorer cannot apply
    to it. *)
Theorem no_percent_sign_no_percentage (text : string) (skip : nat) :
  contains "%" text = false -> Server.findall_percentages text skip = [].
Proof.
  revert skip. induction text as [|c s IH]; intros skip H; [reflexivity|].
  assert (Hs : contains "%" s = false).
  { destruct (contains "%" s) eqn:E; [|reflexivity].
    now rewrite (contains_tail "%" c s E) in H. }
  cbn [Server.findall_percentages].
  destruct skip as [|n]; [|now apply IH].
  destruct (Server.match_percentage (String c s)) as [[g len]|] eqn:M.
  - now rewrite (match_percentage_sign _ _ M) in H.
  - now apply IH.
Qed.

Lemma no_percent_sign_no_percentage_witness :
  Server.findall_percentages Server.GOLD1_news 0 = [].
Proof.
  apply (no_percent_sign_no_percentage Server.GOLD1_news 0). reflexivity.
Defined.

Lemma label_cases (text : string) :
  let l := Server.sentiment (Server.analyze_with_finbert_simulation text) in
  l = "positive" \/ l = "negative" \/ l = "neutral".
Proof.
  cbv zeta. destruct (analysis_shape text) as [raw [_ [_ H]]]. cbv zeta in H.
  destruct H as [[L _] | [[L _] | [L _]]]; auto.
Qed.

Lemma counts_partition (stocks : list (string * string)) :
  let l := Server.analyze_stocks stocks in
  (Server.count_sentiment "positive" l + Server.count_sentiment "negative" l
   + Server.count_sentiment "neutral" l)%nat = List.length stocks.
Proof.
  cbv zeta. unfold Server.count_sentiment.
  induction stocks as [|[symbol news] stocks IH]; [reflexivity|].
  cbn [Server.analyze_stocks map filter Server.ss_analysis].
  fold (Server.analyze_stocks stocks).
  destruct (label_cases news) as [L | [L | L]]; cbv zeta in L; rewrite L;
    cbn [String.eqb Ascii.eqb Bool.eqb andb List.length]; simpl in IH |- *; lia.
Qed.

Lemma sum_bounds (lo hi : Q) (xs : list Q) :
  (forall x, In x xs -> lo <= x <= hi) ->
  inject_Z (Z.of_nat (List.length xs)) * lo <= sum xs
  <= inject_Z (Z.of_nat (List.length xs)) * hi.
Proof.
  induction xs as [|x xs IH]; intro H.
  - unfold sum. cbn [List.length fold_left].
    change (inject_Z (Z.of_nat 0)) with 0. lra.
  - rewrite sum_cons. cbn [List.length]. rewrite Nat2Z.inj_succ.
    unfold Z.succ. rewrite inject_Z_plus.
    destruct (H x (or_introl eq_refl)) as [A B].
    destruct IH as [C D]; [intros y Hy; apply H; now right|].
    change (inject_Z 1) with 1. split; lra.
Qed.

(** X15.  The sentiment endpoint, on any table of stocks: it fails exactly
    on the empty table; otherwise there is one entry per stock, in order,
    every entry comes from the FinBERT simulation (the rule-based fallback
    is never used, and the primary method is [finbert_local]), the three
    label counts add up to the number of stocks, and the average confidence
    lies between 0.6 and 0.95. *)
Theorem portfolio_sentiment_summary (stocks : list (string * string)) :
  (Server.portfolio_sentiment stocks = None <-> stocks = []) /\
  forall r, Server.portfolio_sentiment stocks = Some r ->
    let ps := Server.portfolio_summary r in
    Server.total_stocks ps = List.length stocks /\
    (Server.positive_sentiment ps + Server.negative_sentiment ps
     + Server.neutral_sentiment ps)%nat = Server.total_stocks ps /\
    Server.finbert_successes r = List.length stocks /\
    Server.primary_method r = "finbert_local" /\
    map Server.ss_symbol (Server.response_sentiments r) = map fst stocks /\
    0.6 <= Server.average_confidence ps <= 0.95.
Proof.
  split.
  - destruct stocks as [|[symbol news] stocks]; split; try discriminate;
      reflexivity.
  - intros r H. unfold Server.portfolio_sentiment in H. cbv zeta in H.
    pose proof (counts_partition stocks) as P. cbv zeta in P.
    assert (Lm : List.length (Server.analyze_stocks stocks) = List.length stocks).
    { unfold Server.analyze_stocks. apply length_map. }
    assert (Sy : map Server.ss_symbol (Server.analyze_stocks stocks)
                 = map fst stocks).
    { unfold Server.analyze_stocks. rewrite map_map. apply map_ext.
      now intros [symbol news]. }
    assert (Cf : forall x,
               In x (map (fun s => Server.confidence (Server.ss_analysis s))
                         (Server.analyze_stocks stocks)) ->
               0.6 <= x <= 0.95).
    { intros x Hx. unfold Server.analyze_stocks in Hx. rewrite map_map in Hx.
      apply in_map_iff in Hx. destruct Hx as [[symbol news] [<- _]].
      apply confidence_in_range. }
    pose proof (sum_bounds 0.6 0.95 _ Cf) as B. rewrite length_map in B.
    destruct (Server.analyze_stocks stocks) as [|first others] eqn:E;
      [discriminate|].
    injection H as <-.
    cbn [Server.portfolio_summary Server.total_stocks Server.positive_sentiment
         Server.negative_sentiment Server.neutral_sentiment
         Server.finbert_successes Server.primary_method
         Server.response_sentiments Server.average_confidence].
    change (Z.pos (Pos.of_succ_nat (List.length others)))
      with (Z.of_nat (List.length (first :: others))).
    remember (inject_Z (Z.of_nat (List.length (first :: others)))) as n eqn:Hn.
    assert (Npos : 0 < n).
    { rewrite Hn. change 0 with (inject_Z 0). rewrite <- Zlt_Qlt.
      cbn [List.length]. lia. }
    cbn [map] in B |- *.
    repeat split; try assumption.
    + rewrite P. symmetry. exact Lm.
    + rewrite <- Lm, <- Hn.
      assert (F : Qltb n (n / 2) = false).
      { apply Qltb_ge. apply Qle_shift_div_r; [reflexivity|].
        lra. }
      now rewrite F.
    + apply Qle_trans with (round 0.6 4); [vm_compute; discriminate|].
      apply round_mono. apply Qle_shift_div_l; [exact Npos|].
      lra.
    + apply Qle_trans with (round 0.95 4); [|vm_compute; discriminate].
      apply round_mono. apply Qle_shift_div_r; [exact Npos|].
      lra.
Qed.

Lemma portfolio_sentiment_summary_witness :
  exists r,
    Server.get_portfolio_sentiment = Some r /\
    Server.total_stocks (Server.portfolio_summary r) = 4%nat /\
    0.6 <= Server.average_confidence (Server.portfolio_summary r) <= 0.95.
Proof.
  destruct Server.get_portfolio_sentiment as [r|] eqn:E.
  - exists r. split; [reflexivity|].
    destruct (portfolio_sentiment_summary Server.portfolio_stocks) as [_ H].
    destruct (H r E) as [T [_ [_ [_ [_ A]]]]]. split; [exact T | exact A].
  - destruct (portfolio_sentiment_summary Server.portfolio_stocks) as [[H _] _].
    discriminate (H E).
Defined.

End SentimentMore.

(* ================================================================== *)
(** * More on the risk endpoint                                        *)
(* ================================================================== *)

Module RiskMore.
Import Py PyFacts RiskProps Notions.

Lemma accumulate_fold (key : Server.risk_holding -> string)
    (data : list Server.risk_holding) :
  Server.accumulate key data = fold_left (accumulate_step key) data [].
Proof. reflexivity. Qed.

Lemma qdict_set_keys (d : Server.qdict) (k : string) (v : Q) :
  map fst (Server.qdict_set d k v)
  = if existsb (String.eqb k) (map fst d) then map fst d
    else (map fst d ++ [k])%list.
Proof.
  induction d as [|[k0 v0] d IH]; [reflexivity|].
  cbn [Server.qdict_set map fst existsb].
  destruct (String.eqb k k0); [reflexivity|].
  cbn [map fst orb]. rewrite IH.
  now destruct (existsb (String.eqb k) (map fst d)).
Qed.

Lemma existsb_eqb_In (k : string) (ks : list string) :
  existsb (String.eqb k) ks = true <-> In k ks.
Proof.
  rewrite existsb_exists. split.
  - intros [x [Hx E]]. apply String.eqb_eq in E. now subst.
  - intro H. exists k. split; [exact H | apply String.eqb_refl].
Qed.

Lemma fold_keys (key : Server.risk_holding -> string)
    (data : list Server.risk_holding) :
  forall d,
    NoDup (map fst d) ->
    NoDup (map fst (fold_left (accumulate_step key) data d)) /\
    (forall k, In k (map fst (fold_left (accumulate_step key) data d)) <->
               In k (map fst d) \/ exists h, In h data /\ key h = k).
Proof.
  induction data as [|h data IH]; intros d N.
  - simpl. split; [exact N|]. intro k. split; [now left|].
    intros [H | [h [[] _]]]. exact H.
  - cbn [fold_left].
    assert (N' : NoDup (map fst (accumulate_step key d h))).
    { unfold accumulate_step. rewrite qdict_set_keys.
      destruct (existsb (String.eqb (key h)) (map fst d)) eqn:E; [exact N|].
      apply NoDup_app; [exact N | repeat constructor; intros []|].
      intros x Hx [<- | []].
      apply existsb_eqb_In in Hx. congruence. }
    destruct (IH (accumulate_step key d h) N') as [A B]. split; [exact A|].
    intro k. rewrite B. unfold accumulate_step. rewrite qdict_set_keys.
    destruct (existsb (String.eqb (key h)) (map fst d)) eqn:E.
    + apply existsb_eqb_In in E. split.
      * intros [H | [x [Hx Kx]]];
          [now left | right; exists x; split; [now right | exact Kx]].
      * intros [H | [x [[<- | Hx] Kx]]];
          [now left | left; now subst | right; now exists x].
    + rewrite in_app_iff. split.
      * intros [[H | [<- | []]] | [x [Hx Kx]]];
          [now left | right; exists h; split; [now left | reflexivity]
          | right; exists x; split; [now right | exact Kx]].
      * intros [H | [x [[<- | Hx] Kx]]];
          [left; now left | left; right; left; now subst | right; now exists x].
Qed.

Lemma accumulate_groups_keys (key : Server.risk_holding -> string)
    (data : list Server.risk_holding) :
  let d := Server.accumulate key data in
  NoDup (map fst d) /\
  (forall k, In k (map fst d) <-> exists h, In h data /\ key h = k).
Proof.
  cbv zeta. rewrite accumulate_fold.
  destruct (fold_keys key data [] (NoDup_nil _)) as [N K].
  split; [exact N|].
  intro k. rewrite K. split; [intros [[] | H]; exact H | now right].
Qed.

(** X16.  The accumulation loops group the holdings: the dictionary has
    each class (or sector) of the table once, a key only if some holding
    has it, and under each key the sum of the current values of the
    holdings filed under it, in the order of the table. *)
Theorem accumulate_groups (key : Server.risk_holding -> string)
    (data : list Server.risk_holding) :
  let d := Server.accumulate key data in
  NoDup (map fst d) /\
  (forall k, In k (map fst d) <-> exists h, In h data /\ key h = k) /\
  (forall k, Server.qdict_get d k 0
             == sum (map Server.r_current_value
                         (filter (fun h => String.eqb (key h) k) data))).
Proof.
  cbv zeta. destruct (accumulate_groups_keys key data) as [N K].
  split; [exact N|]. split; [exact K|].
  intro k. apply accumulate_get.
Qed.

Lemma accumulate_nonempty (key : Server.risk_holding -> string)
    (h : Server.risk_holding) (data : list Server.risk_holding) :
  Server.accumulate key (h :: data) <> [].
Proof.
  intro E.
  destruct (accumulate_groups_keys key (h :: data)) as [_ K].
  assert (I : In (key h) (map fst (Server.accumulate key (h :: data)))).
  { apply K. exists h. split; [now left | reflexivity]. }
  rewrite E in I. exact I.
Qed.

Lemma risks_none_iff (data : list Server.risk_holding) (now : string) :
  Server.portfolio_risks data now = None
  <-> data <> [] /\ sum (map Server.r_current_value data) == 0.
Proof.
  unfold Server.portfolio_risks. cbv zeta.
  destruct data as [|h data].
  - cbn. split; [discriminate | intros [H _]; now elim H].
  - pose proof (accumulate_nonempty Server.r_asset_class h data) as NA.
    pose proof (accumulate_nonempty Server.r_sector h data) as NS.
    set (total := sum (map Server.r_current_value (h :: data))) in *.
    unfold Server.percentages_of.
    destruct (Server.accumulate Server.r_asset_class (h :: data)) as [|a ca];
      [now elim NA|].
    destruct (Server.accumulate Server.r_sector (h :: data)) as [|b cb];
      [now elim NS|].
    destruct (Qeq_bool total 0) eqn:E.
    + apply Qeq_bool_eq in E.
      split; [intros _; split; [discriminate | exact E] | reflexivity].
    + split; [discriminate|]. intros [_ Z]. apply Qeq_eq_bool in Z. congruence.
Qed.

Lemma max_of_spec (l : list Q) :
  forall v, In (Server.max_of v l) (v :: l) /\
            forall x, In x (v :: l) -> x <= Server.max_of v l.
Proof.
  unfold Server.max_of.
  induction l as [|y l IH]; intro v.
  - simpl. split; [now left|]. intros x [<- | []]. apply Qle_refl.
  - cbn [fold_left]. destruct (IH (if Qltb v y then y else v)) as [A B].
    split.
    + destruct A as [A | A]; [|right; now right].
      rewrite <- A. destruct (Qltb v y); [right; now left | now left].
    + intros x [<- | [<- | Hx]].
      * apply Qle_trans with (if Qltb v y then y else v); [|apply B; now left].
        destruct (Qltb v y) eqn:E;
          [apply Qlt_le_weak; now apply Qltb_lt | apply Qle_refl].
      * apply Qle_trans with (if Qltb v y then y else v); [|apply B; now left].
        destruct (Qltb v y) eqn:E; [apply Qle_refl | now apply Qltb_ge].
      * apply B. now right.
Qed.

Lemma risks_shape (data : list Server.risk_holding) (now : string)
    (r : Server.risk_response) :
  Server.portfolio_risks data now = Some r ->
  let total := sum (map Server.r_current_value data) in
  let scale := fun kv : string * Q => (fst kv, snd kv / total * 100) in
  (data = [] \/ ~ total == 0) /\
  Server.total_portfolio_value r = total /\
  Server.asset_class_allocation r
  = map scale (Server.accumulate Server.r_asset_class data) /\
  Server.sector_allocation r
  = map scale (Server.accumulate Server.r_sector data) /\
  exists r1 r2,
    Server.risks r = [r1; r2; Server.currency_risk] /\
    r1 = (if Qltb 75 (Server.qdict_get (Server.asset_class_allocation r)
                                       "Equity" 0)
          then Server.asset_concentration_risk
          else Server.asset_allocation_good) /\
    r2 = (if Qltb 50 (match Server.sector_allocation r with
                      | [] => 0
                      | (_, v) :: rest => Server.max_of v (map snd rest)
                      end)
          then Server.sector_concentration_risk
          else Server.sector_diversification_good) /\
    Server.summary r =
      {| Server.total_risks :=
           List.length (filter (fun x => String.eqb (Server.severity x) "warning")
                               [r1; r2; Server.currency_risk]);
         Server.high_risk_count :=
           List.length (filter (fun x => String.eqb (Server.level x) "High")
                               [r1; r2; Server.currency_risk]);
         Server.overall_risk_score :=
           if existsb (fun x => String.eqb (Server.level x) "High")
                      [r1; r2; Server.currency_risk]
           then "Moderate" else "Low" |}.
Proof.
  intro H. cbv zeta.
  assert (T : data = [] \/ ~ sum (map Server.r_current_value data) == 0).
  { destruct data as [|h data]; [now left|]. right. intro Z.
    assert (N : Server.portfolio_risks (h :: data) now = None).
    { apply risks_none_iff. split; [discriminate | exact Z]. }
    congruence. }
  split; [exact T|].
  unfold Server.portfolio_risks in H. cbv zeta in H.
  assert (P : forall key,
             Server.percentages_of (Server.accumulate key data)
               (sum (map Server.r_current_value data))
             = Some (map (fun kv =>
                            (fst kv,
                             snd kv / sum (map Server.r_current_value data)
                             * 100))
                         (Server.accumulate key data))).
  { intro key. destruct T as [-> | T]; [reflexivity|].
    now apply percentages_of_ok. }
  rewrite !P in H. injection H as <-.
  cbn [Server.total_portfolio_value Server.asset_class_allocation
       Server.sector_allocation Server.risks Server.summary].
  repeat split.
  eexists. eexists. split; [|split; [reflexivity|split; [reflexivity|]]].
  - destruct (Qltb 75 _); destruct (Qltb 50 _); reflexivity.
  - destruct (Qltb 75 _); destruct (Qltb 50 _); reflexivity.
Qed.

(** X19.  The Sector Concentration entry (level High, severity warning) is
    among the risks exactly when some sector holds more than 50 percent of
    the total value; otherwise, and only then, the Good sector
    diversification entry is. *)
Theorem sector_flag (data : list Server.risk_holding) (now : string)
    (r : Server.risk_response) :
  Server.portfolio_risks data now = Some r ->
  (In Server.sector_concentration_risk (Server.risks r)
   <-> exists k v, In (k, v) (Server.sector_allocation r) /\ 50 < v) /\
  (In Server.sector_diversification_good (Server.risks r)
   <-> forall k v, In (k, v) (Server.sector_allocation r) -> v <= 50).
Proof.
  intro H.
  destruct (risks_shape data now r H) as [_ [_ [_ [_ [r1 [r2 [-> [E1 [E2 _]]]]]]]]].
  assert (M : Qltb 50 (match Server.sector_allocation r with
                       | [] => 0
                       | (_, v) :: rest => Server.max_of v (map snd rest)
                       end) = true
              <-> exists k v, In (k, v) (Server.sector_allocation r) /\ 50 < v).
  { rewrite Qltb_lt. destruct (Server.sector_allocation r) as [|[k0 v0] rest].
    - split; [intro L; discriminate L | intros [k [v [[] _]]]].
    - destruct (max_of_spec (map snd rest) v0) as [A B]. split.
      + intro L. destruct A as [A | A].
        * exists k0, v0. split; [now left | now rewrite A].
        * apply in_map_iff in A. destruct A as [[k v] [A Hin]].
          exists k, v. split; [now right|]. simpl in A. now rewrite A.
      + intros [k [v [Hin L]]].
        apply Qlt_le_trans with v; [exact L|]. apply B.
        destruct Hin as [Hin | Hin]; [left; now inversion Hin|].
        right. apply in_map_iff. now exists (k, v). }
  assert (D1 : r1 <> Server.sector_concentration_risk
               /\ r1 <> Server.sector_diversification_good).
  { rewrite E1. destruct (Qltb 75 _); split; discriminate. }
  destruct D1 as [D1 D1'].
  destruct (Qltb 50 _); subst r2; split; split.
  - intros _. now apply M.
  - intros _. right. now left.
  - intros [A | [A | [A | []]]];
      [now elim D1' | discriminate A | discriminate A].
  - intro All. destruct M as [M _]. destruct (M eq_refl) as [k [v [Hin L]]].
    apply All in Hin. apply Qlt_not_le in L. now elim L.
  - intros [A | [A | [A | []]]];
      [now elim D1 | discriminate A | discriminate A].
  - intro Ex. apply M in Ex. discriminate Ex.
  - intros _ k v Hin. apply Qnot_lt_le. intro L.
    assert (X : false = true) by (apply M; now exists k, v).
    discriminate X.
  - intros _. right. now left.
Qed.

Lemma sector_flag_witness :
  exists r,
    Server.portfolio_risks Samples.equity_heavy "t" = Some r /\
    exists k v, In (k, v) (Server.sector_allocation r) /\ 50 < v.
Proof.
  destruct (Server.portfolio_risks Samples.equity_heavy "t") as [r|] eqn:E;
    [|vm_compute in E; discriminate E].
  exists r. split; [reflexivity|].
  destruct (sector_flag Samples.equity_heavy "t" r E) as [[A _] _].
  apply A. vm_compute in E. injection E as <-.
  right. left. reflexivity.
Defined.

(** X20.  The summary of a risks response agrees with its list: there are
    always three risks, the last being the currency entry; the number of
    warnings equals the number of High entries and is at most 2; the
    overall score is Moderate when there is a High entry and Low when there
    is none. *)
Theorem risk_summary_consistent (data : list Server.risk_holding)
    (now : string) (r : Server.risk_response) :
  Server.portfolio_risks data now = Some r ->
  let s := Server.summary r in
  List.length (Server.risks r) = 3%nat /\
  last (Server.risks r) Server.currency_risk = Server.currency_risk /\
  Server.total_risks s = Server.high_risk_count s /\
  (Server.high_risk_count s <= 2)%nat /\
  (Server.overall_risk_score s = "Moderate"
   <-> (1 <= Server.high_risk_count s)%nat) /\
  (Server.overall_risk_score s = "Low" <-> Server.high_risk_count s = 0%nat).
Proof.
  intro H. cbv zeta.
  destruct (risks_shape data now r H)
    as [_ [_ [_ [_ [r1 [r2 [-> [E1 [E2 ->]]]]]]]]].
  rewrite E1, E2.
  destruct (Qltb 75 _); destruct (Qltb 50 _); cbn;
    repeat split; try reflexivity; try lia; try discriminate.
Qed.

Lemma risk_summary_consistent_witness :
  exists r,
    Server.portfolio_risks Samples.equity_heavy "t" = Some r /\
    Server.total_risks (Server.summary r)
    = Server.high_risk_count (Server.summary r) /\
    Server.overall_risk_score (Server.summary r) = "Moderate".
Proof.
  destruct (Server.portfolio_risks Samples.equity_heavy "t") as [r|] eqn:E;
    [|vm_compute in E; discriminate E].
  exists r. split; [reflexivity|].
  destruct (risk_summary_consistent Samples.equity_heavy "t" r E)
    as [_ [_ [A [_ [[_ B] _]]]]].
  split; [exact A|]. apply B.
  vm_compute in E. injection E as <-. cbn. lia.
Defined.

End RiskMore.

(* ================================================================== *)
(** * More on the hedge endpoint                                       *)
(* ================================================================== *)

Module HedgeMore.
Import Py PyFacts RoundFacts HedgeProps.

Lemma some_eq {A} (x y : A) : Some x = Some y -> x = y.
Proof. intro H. now injection H. Qed.


(** X22.  The hedge endpoint ends in its error branch exactly when the base
    date lies in the first 360 days of year 1, where the date twelve
    30-day months back does not exist; for every other base date it
    answers. *)
Theorem hedge_failure (hash : string -> Z) (pl : option PL.pl_result)
    (bd : Server.datetime) :
  Server.get_hedge_analysis hash pl bd = None
  <-> (Server.ordinal bd < 361)%Z.
Proof.
  split.
  - intro H. destruct (Z_lt_le_dec (Server.ordinal bd) 361) as [L|L]; [exact L|].
    destruct (hedge_analysis_under_one_hash hash pl bd L) as [r [E _]].
    congruence.
  - intro L. unfold Server.get_hedge_analysis, Server.range_12_0.
    cbn [Server.history_loop]. unfold Server.history_entry at 1.
    unfold Server.minus_days.
    assert (B : (Server.ordinal bd - 12 * 30 <? 1)%Z = true)
      by (apply Z.ltb_lt; lia).
    rewrite B. reflexivity.
Qed.








(** X25.  The hedge recommendations are never empty: without a P&L result,
    or when no line matches, the four default recommendations are given;
    and a result with a line whose instrument name contains "gold", in any
    letter case, always gets the gold recommendation. *)
Theorem recommendations_never_empty (pl : option PL.pl_result) :
  Server.recommendations pl <> [] /\
  (forall d line,
      pl = Some d -> In line (PL.details d) ->
      contains "GOLD" (Server.upper (PL.pl_instrument line)) = true ->
      In "Gold positions act as natural hedge - maintain allocation"
         (Server.recommendations pl)) /\
  (pl = None ->
   Server.recommendations pl
   = ["Consider NIFTY put options for downside protection";
      "Increase allocation to defensive sectors like FMCG";
      "Maintain cash reserves for market opportunities";
      "Use VIX futures to hedge against volatility"]).
Proof.
  split; [|split].
  - unfold Server.recommendations.
    destruct pl as [d|]; [|discriminate].
    match goal with |- context [match ?l with [] => _ | _ :: _ => ?l end] =>
      destruct l eqn:E end; discriminate.
  - intros d line -> Hin G. unfold Server.recommendations.
    match goal with |- context [match ?l with [] => _ | _ :: _ => ?l end] =>
      assert (I : In "Gold positions act as natural hedge - maintain allocation" l)
    end.
    { apply in_or_app. right. apply in_flat_map. exists line.
      split; [exact Hin|]. rewrite G. now left. }
    match goal with |- context [match ?l with [] => _ | _ :: _ => ?l end] =>
      destruct l eqn:E end; [destruct I | exact I].
  - intros ->. reflexivity.
Qed.

Lemma recommendations_never_empty_witness :
  In "Gold positions act as natural hedge - maintain allocation"
     (Server.recommendations
        (Some (fst (PL.calculate_portfolio_pl Samples.world_down
                      [Samples.gold] 0%nat)))).
Proof.
  destruct (recommendations_never_empty
              (Some (fst (PL.calculate_portfolio_pl Samples.world_down
                            [Samples.gold] 0%nat)))) as [_ [A _]].
  apply (A _ (PL.line_of Samples.gold VNone) eq_refl);
    [left; reflexivity | reflexivity].
Defined.

(** X21.  Within one interpreter process (one hash function) and for any
    base date after the first 360 days of year 1, the hedge endpoint
    answers; its history has 12 entries; and any hash function that agrees
    with this one on the twelve month-date strings gives the very same
    response. *)
Theorem hedge_answers_under_one_hash (hash : string -> Z)
    (pl : option PL.pl_result) (bd : Server.datetime) :
  (361 <= Server.ordinal bd)%Z ->
  exists r,
    Server.get_hedge_analysis hash pl bd = Some r /\
    List.length (Server.historical_data r) = 12%nat /\
    (forall hash',
        (forall i d, In i Server.range_12_0 ->
                     Server.minus_days bd (i * 30) = Some d ->
                     hash' (Server.str_of_datetime d)
                     = hash (Server.str_of_datetime d)) ->
        Server.get_hedge_analysis hash' pl bd = Some r).
Proof.
  intro Hord.
  destruct (hedge_analysis_under_one_hash hash pl bd Hord)
    as [r [E [_ [_ [_ [_ [L X]]]]]]].
  exists r. repeat split; assumption.
Qed.

Lemma hedge_answers_under_one_hash_witness :
  exists r,
    Server.get_hedge_analysis (Samples.salted_hash 1) None Samples.a_base_date
    = Some r /\
    List.length (Server.historical_data r) = 12%nat.
Proof.
  destruct (hedge_answers_under_one_hash (Samples.salted_hash 1) None
              Samples.a_base_date) as [r [E [L _]]].
  - vm_compute. discriminate.
  - exists r. split; [exact E | exact L].
Defined.

End HedgeMore.

(* ================================================================== *)
(** * The advanced hedge and snapshot endpoints                        *)
(* ================================================================== *)

Module EndpointsMore.
Import Py PyFacts RoundFacts PLProps PLMore HedgeMore Notions.






(** X27.  In the advanced hedge analysis the sentiment service only picks
    one of two returns: the adjusted return is 0.158 when the reported
    overall sentiment is the string "Bullish" and 0.108 otherwise, and any
    reply that is not a 200 response with a JSON object (a failure, another
    status, a body that is no object) is replaced by the fixed Bullish
    analysis, hence 0.158. *)
Theorem advanced_sentiment (pl : option PL.pl_result)
    (sentiment_reply : PL.reply) (r : Server.advanced_response) :
  Server.get_advanced_hedge_analysis pl sentiment_reply = Some r ->
  Server.adv_finbert r = Server.finbert_of_reply sentiment_reply /\
  Server.confidence_score r = Server.fb_confidence (Server.adv_finbert r) /\
  ((Server.fb_overall_sentiment (Server.adv_finbert r) = VStr "Bullish" /\
    Server.sentiment_momentum r = 0.68 /\
    Server.sentiment_adjusted_return r == 0.158) \/
   (Server.fb_overall_sentiment (Server.adv_finbert r) <> VStr "Bullish" /\
    Server.sentiment_momentum r = -0.32 /\
    Server.sentiment_adjusted_return r == 0.108)) /\
  ((forall data, sentiment_reply <> PL.Response 200 (Some (VDict data))) ->
   Server.adv_finbert r = Server.finbert_fallback /\
   Server.sentiment_adjusted_return r == 0.158).
Proof.
  intro H. unfold Server.get_advanced_hedge_analysis in H.
  destruct (Server.advanced_inputs pl) as [cv vs].
  destruct (Server.max_list _) as [top|]; [|discriminate].
  apply some_eq in H. rewrite <- H.
  cbn [Server.adv_finbert Server.confidence_score Server.sentiment_momentum
       Server.sentiment_adjusted_return].
  split; [reflexivity|]. split; [reflexivity|]. split.
  - destruct (is_str "Bullish" _) eqn:E.
    + left. apply is_str_eq in E. split; [exact E | split; reflexivity].
    + right. split; [|split; reflexivity].
      intro B. apply is_str_eq in B. congruence.
  - intro F.
    assert (X : Server.finbert_of_reply sentiment_reply = Server.finbert_fallback).
    { unfold Server.finbert_of_reply.
      destruct sentiment_reply as [code [[| | | | |data]|]|]; try reflexivity.
      destruct (code =? 200)%Z eqn:E; [|reflexivity].
      apply Z.eqb_eq in E. subst code. now elim (F data). }
    rewrite X. split; reflexivity.
Qed.

Lemma advanced_sentiment_witness :
  exists r,
    Server.get_advanced_hedge_analysis None (PL.Response 503 None) = Some r /\
    Server.adv_finbert r = Server.finbert_fallback /\
    Server.sentiment_adjusted_return r == 0.158.
Proof.
  destruct (Server.get_advanced_hedge_analysis None (PL.Response 503 None))
    as [r|] eqn:E; [|vm_compute in E; discriminate E].
  exists r. split; [reflexivity|].
  destruct (advanced_sentiment None (PL.Response 503 None) r E)
    as [_ [_ [_ F]]].
  apply F. intros data. discriminate.
Defined.





End EndpointsMore.

(* ================================================================== *)
(** * Binary64 arithmetic at work                                      *)
(* ================================================================== *)

Module F64Facts.
Import PrimFloat.
Local Open Scope float_scope.

(** What the interpreter prints for a few expressions. *)
Lemma python_examples :
  F64.of_Q (3 # 10) = 0.3 /\
  F64.of_Q (100000000000000000001 # 10000000000000000000) = 10 /\
  F64.of_Z 9007199254740993 = 9007199254740992 /\
  F64.sum [0.1; 0.2; 0.3] = 0.6000000000000001 /\
  F64.sum [0.1; 0.2; -0.3] = 5.551115123125783e-17 /\
  3 * 0.2 = 0.6000000000000001 /\
  F64.round (1100.25 * 0.90) 2 = 990.23 /\
  F64.round (0.5 * 0.95) 2 = 0.47 /\
  F64.round 2.675 2 = 2.67 /\
  F64.round 0.125 2 = 0.12 /\
  F64.round (-0.001) 2 = neg_zero.
Proof. repeat split; vm_compute; reflexivity. Qed.

End F64Facts.

(* ================================================================== *)
(** * The aggregator in binary64                                       *)
(* ================================================================== *)

Module PL64Props.
Import Py PrimFloat PL64 Notions64.
Local Open Scope float_scope.

Lemma line_of_some (h : holding) (price : value) :
  in_float_range price = true ->
  exists line,
    line_of h price = Some line /\
    pl_instrument line = instrument h /\
    pl_invested line = invested h /\
    pl_amount line = pl_current_value line - pl_invested line.
Proof.
  unfold in_float_range, line_of.
  destruct (live_price price); intro H; try discriminate H;
    eexists; (split; [reflexivity|]); repeat split.
Qed.

Lemma line_of_none (h : holding) (price : value) :
  in_float_range price = false -> line_of h price = None.
Proof.
  unfold in_float_range, line_of.
  destruct (live_price price); intro H; try discriminate H. reflexivity.
Qed.

Lemma resolved_prices_step (w : PL.world) (h : holding) (hs : list holding)
    (k : nat) :
  resolved_prices w (h :: hs) k =
  let (price, k1) := resolve_price w h k in
  let (prices, k2) := resolved_prices w hs k1 in (price :: prices, k2).
Proof. reflexivity. Qed.

(** What the loop does to its three variables: while the prices are in
    range it appends one line per holding and carries the two sums on over
    those lines; at the first price out of range it gives up. *)
Lemma pl_loop_lines (w : PL.world) (hs : list holding) :
  forall ti tcv ds k,
    if forallb in_float_range (fst (resolved_prices w hs k)) then
      exists lines,
        fst (pl_loop w hs (ti, tcv, ds) k)
        = Some (fold_left add (map pl_invested lines) ti,
                fold_left add (map pl_current_value lines) tcv,
                (ds ++ lines)%list) /\
        map pl_instrument lines = map instrument hs /\
        Forall (fun line => pl_amount line
                            = pl_current_value line - pl_invested line) lines
    else fst (pl_loop w hs (ti, tcv, ds) k) = None.
Proof.
  induction hs as [|h hs IH]; intros ti tcv ds k.
  - cbn. exists []. rewrite app_nil_r. repeat split. constructor.
  - rewrite resolved_prices_step. cbn [pl_loop]. unfold PL.bind.
    destruct (resolve_price w h k) as [price k1].
    specialize (IH (ti + invested h)).
    destruct (resolved_prices w hs k1) as [prices k2] eqn:R.
    cbn [fst forallb].
    destruct (in_float_range price) eqn:E; cbn [andb].
    + destruct (line_of_some h price E) as [line [-> [Li [Lv La]]]].
      specialize (IH (tcv + pl_current_value line) (ds ++ [line])%list k1).
      rewrite R in IH. cbn [fst] in IH.
      destruct (forallb in_float_range prices); [|exact IH].
      destruct IH as [lines [-> [I F]]].
      exists (line :: lines). cbn [map fold_left].
      rewrite <- app_assoc, Lv, Li, I. cbn [app].
      repeat split. constructor; assumption.
    + now rewrite (line_of_none h price E).
Qed.

(** C1 (amended).  For every list of holdings, whatever the price services
    answer, the aggregator returns a result unless a price is an integer
    too large for a float; the result has one line per holding, live or
    fallback; each line's [pl_amount] is its current value minus its
    invested amount; [total_invested] and [total_current_value] are the
    float sums of the lines' invested amounts and current values, added in
    the order of the list; and [total_pl] is the difference of the two
    totals. *)
Theorem total_pl_is_difference_of_totals (w : PL.world) (hs : list holding)
    (k : nat) :
  let out := fst (calculate_portfolio_pl w hs k) in
  (out <> None
   <-> forallb in_float_range (fst (resolved_prices w hs k)) = true) /\
  forall r, out = Some r ->
    List.length (details r) = List.length hs /\
    Forall (fun line => pl_amount line
                        = pl_current_value line - pl_invested line)
           (details r) /\
    total_invested r = F64.sum (map pl_invested (details r)) /\
    total_current_value r = F64.sum (map pl_current_value (details r)) /\
    total_pl r = total_current_value r - total_invested r.
Proof.
  cbv zeta. unfold calculate_portfolio_pl, PL.bind.
  pose proof (pl_loop_lines w hs 0 0 [] k) as L.
  destruct (pl_loop w hs (0, 0, []) k) as [acc k'].
  cbn [fst] in L.
  destruct (forallb in_float_range (fst (resolved_prices w hs k))).
  - destruct L as [lines [-> [I F]]]. cbn [fst PL.ret].
    split; [split; [reflexivity | discriminate]|].
    intros r E. injection E as <-.
    cbn [details total_invested total_current_value total_pl app].
    repeat split; try assumption.
    rewrite <- (length_map pl_instrument), I. apply length_map.
  - rewrite L. cbn [fst PL.ret].
    split; [split; [intro N; now elim N | discriminate]|].
    discriminate.
Qed.

(** A quote of [10 ^ 400] ends the calculation in its error branch, after
    the one request for it. *)
Lemma huge_quote_aborts :
  calculate_portfolio_pl Samples64.world_huge
    [Samples64.oil; Samples64.oil] 0%nat = (None, 1%nat).
Proof. vm_compute. reflexivity. Qed.

(** Against C1 as it is stated: on the four holdings the server falls back
    on, none of them priced, the total P&L is 36309.879999999976 and the
    float sum of the four line amounts is 36309.87999999999. *)
Lemma total_pl_differs_from_line_sum :
  exists r,
    fst (calculate_portfolio_pl Samples.world_down Samples64.fallback_table
                                0%nat) = Some r /\
    (total_pl r =? 36309.879999999976) = true /\
    (F64.sum (map pl_amount (details r)) =? 36309.87999999999) = true /\
    (total_pl r =? F64.sum (map pl_amount (details r))) = false.
Proof.
  eexists. split; [vm_compute; reflexivity|].
  repeat split; vm_compute; reflexivity.
Qed.

End PL64Props.

(* ================================================================== *)
(** * The risk assessment in binary64                                  *)
(* ================================================================== *)

Module Risk64Props.
Import Py PrimFloat Notions64.
Local Open Scope float_scope.












End Risk64Props.

(* ================================================================== *)
(** * The sentiment scorers in binary64                                *)
(* ================================================================== *)

Module Sentiment64Props.
Import Py PrimFloat Notions64.
Local Open Scope float_scope.

Ltac split_andb :=
  repeat match goal with
         | H : (_ && _) = true |- _ =>
             apply andb_true_iff in H; destruct H
         end.

Lemma count_in_range (words : list string) (t : string) :
  In (Server64.count_words words t) (counts_up_to words).
Proof.
  unfold counts_up_to, Server64.count_words. apply in_seq.
  pose proof (filter_length_le (fun word => contains word t) words). lia.
Qed.













Lemma rule_based_counts (text : string) :
  exists pc nc,
    In pc (counts_up_to Server.positive_words) /\
    In nc (counts_up_to Server.negative_words) /\
    Server64.analyze_with_rule_based text = rule_based_on pc nc.
Proof.
  exists (Server64.count_words Server.positive_words (lower text)),
         (Server64.count_words Server.negative_words (lower text)).
  split; [apply count_in_range|]. split; [apply count_in_range|].
  unfold Server64.analyze_with_rule_based, rule_based_on. reflexivity.
Qed.

Lemma rule_based_checked (text : string) :
  rule_based_check (Server64.analyze_with_rule_based text) = true.
Proof.
  destruct (rule_based_counts text) as [pc [nc [Hp [Hn ->]]]].
  assert (A : forallb (fun pc =>
                 forallb (fun nc => rule_based_check (rule_based_on pc nc))
                         (counts_up_to Server.negative_words))
                (counts_up_to Server.positive_words) = true)
    by (vm_compute; reflexivity).
  rewrite forallb_forall in A. specialize (A pc Hp).
  rewrite forallb_forall in A. exact (A nc Hn).
Qed.

(** X14.  The three scores of the rule-based scorer sum to 1 only for the
    neutral label, where they are 0.2, 0.2 and 0.6.  For a positive or
    negative label the score of the label is the confidence, between 0.8
    and 0.9, the opposite class gets half of the remainder and neutral the
    whole remainder, so that the float sum of the three is more than 1.04
    (and at most 1.1). *)
Theorem rule_based_scores (text : string) :
  let a := Server64.analyze_with_rule_based text in
  let s := Server64.scores_of a in
  let p := Server64.score_positive s in
  let n := Server64.score_negative s in
  let u := Server64.score_neutral s in
  (Server64.sentiment a = "neutral" /\
   (Server64.confidence a =? 0.6) = true /\
   (p =? 0.2) = true /\ (n =? 0.2) = true /\ (u =? 0.6) = true /\
   (p + n + u =? 1) = true) \/
  (Server64.sentiment a = "positive" /\
   (Server64.confidence a =? p) = true /\ between 0.8 p 0.9 /\
   (n =? (1 - p) / 2) = true /\ (u =? 1 - p) = true /\
   (1.04 <? p + n + u) = true /\ (p + n + u <=? 1.1) = true) \/
  (Server64.sentiment a = "negative" /\
   (Server64.confidence a =? n) = true /\ between 0.8 n 0.9 /\
   (p =? (1 - n) / 2) = true /\ (u =? 1 - n) = true /\
   (1.04 <? p + n + u) = true /\ (p + n + u <=? 1.1) = true).
Proof.
  cbv zeta. pose proof (rule_based_checked text) as C.
  revert C. generalize (Server64.analyze_with_rule_based text). intros a C.
  unfold rule_based_check, labelled_check, scores_total, between in *.
  destruct (String.eqb (Server64.sentiment a) "neutral") eqn:U;
    [|destruct (String.eqb (Server64.sentiment a) "positive") eqn:P;
      [|destruct (String.eqb (Server64.sentiment a) "negative") eqn:N;
        [|discriminate C]]];
    split_andb.
  - left. apply String.eqb_eq in U. now repeat split.
  - right; left. apply String.eqb_eq in P. now repeat split.
  - right; right. apply String.eqb_eq in N. now repeat split.
Qed.

End Sentiment64Props.
